(** * DualShellCommander: the network update pipeline ([network_update.c])

    A shallow embedding of [network_update_thread], [installUpdater] and
    [update_extract_thread].  The three routines are sequences of calls to
    collaborators (downloader, archive, dialogs, file system, power
    management); they are embedded in a small monad that threads the world
    (file system, Dialog Step, progress bar, power lock) and writes the log
    of the calls that were made, in order. *)

From Stdlib Require Import ZArith Ascii String List Lia.
From Stdlib Require Import Strings.Byte.
From stdpp Require Import gmap strings fin_maps.
Import ListNotations.

Local Open Scope string_scope.
Local Open Scope list_scope.
Local Open Scope Z_scope.

(** ** Versions ([network_update.c], lines 49 and 56-63) *)

Module Version.

(** [uint32_t]: a value in [0, 2^32). *)
Definition is_u32 (v : Z) : Prop := 0 <= v < 2 ^ 32.

(** [int major = (version >> 0x18) & 0xFF;] *)
Definition major (version : Z) : Z := Z.land (Z.shiftr version 0x18) 0xFF.

(** [int minor = (version >> 0x10) & 0xFF;] *)
Definition minor (version : Z) : Z := Z.land (Z.shiftr version 0x10) 0xFF.

(** One upper-case hexadecimal digit, as [%X] prints it. *)
Definition hex_digit (d : Z) : ascii :=
  match d with
  | 0 => "0" | 1 => "1" | 2 => "2" | 3 => "3" | 4 => "4" | 5 => "5"
  | 6 => "6" | 7 => "7" | 8 => "8" | 9 => "9" | 10 => "A" | 11 => "B"
  | 12 => "C" | 13 => "D" | 14 => "E" | _ => "F"
  end%char.

(** [%X] on a value below 256: one digit, or two when the value needs them. *)
Definition fmt_X (n : Z) : string :=
  if n <? 16 then String (hex_digit n) EmptyString
  else String (hex_digit (n / 16)) (String (hex_digit (n mod 16)) EmptyString).

(** [%02X] on a value below 256: always two digits. *)
Definition fmt_02X (n : Z) : string :=
  String (hex_digit (n / 16)) (String (hex_digit (n mod 16)) EmptyString).

(** [sprintf(version_string, "%X.%02X", major, minor);] *)
Definition sprintf_version (major minor : Z) : string :=
  fmt_X major +:+ "." +:+ fmt_02X minor.

(** Lines 60-63: the buffer after [sprintf], then
    [if (version_string[3] == '0') version_string[3] = '\0';].  Writing the
    terminator at index 3 cuts the C string down to its first three
    characters. *)
Definition version_string (version : Z) : string :=
  let buf := sprintf_version (major version) (minor version) in
  match String.get 3 buf with
  | Some "0"%char => String.substring 0 3 buf
  | _ => buf
  end.

(** The format the specification words describe: [MAJOR.MINOR], the minor as
    two hexadecimal digits of which a trailing zero is dropped. *)
Definition spec_version_string (version : Z) : string :=
  let hi := hex_digit (minor version / 16) in
  let lo := hex_digit (minor version mod 16) in
  fmt_X (major version) +:+ "." +:+
  (if Ascii.eqb lo "0" then String hi EmptyString
   else String hi (String lo EmptyString)).

End Version.

(** ** Data model *)

(** The Dialog Step enumeration (its declaration is in a header that is not
    part of the sources at hand): the steps this pipeline names, and the
    steps of the rest of the application. *)
Inductive DialogStep : Type :=
| DIALOG_STEP_NONE
| DIALOG_STEP_UPDATE_QUESTION
| DIALOG_STEP_DOWNLOADED
| DIALOG_STEP_EXTRACTED
| DIALOG_STEP_CANCELED
| DIALOG_STEP_OTHER (n : nat).

#[global] Instance DialogStep_eq_dec : EqDecision DialogStep.
Proof. solve_decision. Defined.


(** An entry of the file system: a directory, or a file with its bytes. *)
Inductive node : Type :=
| Dir
| File (content : list byte).

(** The file system: the entries present, by path. *)
Abbreviation FS := (gmap string node).

(** [under dir path]: [path] is [dir] itself or lies below it. *)
Definition under (dir path : string) : bool :=
  String.eqb path dir || String.prefix (dir +:+ "/") path.

(** The part of the file system at and below [dir]. *)
Definition subtree (dir : string) (fs : FS) : FS :=
  filter (fun kv => under dir (fst kv) = true) fs.

(** Modelled from the spec: [removePath] (file.c is absent) is the
    remove-recursive function of the collaborator API; the caller's comment is
    "Recursively clean up pkg directory". *)
Definition fs_removePath (path : string) (fs : FS) : FS :=
  filter (fun kv => under path (fst kv) = false) fs.

(** [sceIoMkdir]: creates the directory; fails, changing nothing, when the
    path already exists. *)
Definition fs_mkdir (path : string) (fs : FS) : FS :=
  match fs !! path with
  | Some _ => fs
  | None => <[path := Dir]> fs
  end.

(** Modelled from the spec: [WriteFile] (file.c is absent) is the file-write
    function of the collaborator API: the file at [path] holds exactly the
    buffer afterwards. *)
Definition fs_write (path : string) (data : list byte) (fs : FS) : FS :=
  <[path := File data]> fs.

(** Modelled from the spec: [ReadFile] (file.c is absent) is the file-read
    function of the collaborator API: at most [size] bytes of the file, or a
    failure when there is no such file. *)
Definition fs_read (path : string) (size : nat) (fs : FS) : option (list byte) :=
  match fs !! path with
  | Some (File data) => Some (take size data)
  | _ => None
  end.

(** [sceIoRemove]: removes a file (not a directory). *)
Definition fs_remove (path : string) (fs : FS) : FS :=
  match fs !! path with
  | Some (File _) => delete path fs
  | _ => fs
  end.

(** The bytes of a buffer after [data] was stored at its start. *)
Definition store_bytes (data buf : list byte) : list byte :=
  take (length buf) data ++ drop (length data) buf.

(** A little-endian buffer read as an unsigned integer (the target is a
    little-endian ARM). *)
Definition le_decode (bs : list byte) : Z :=
  fold_right (fun b acc => Z.of_N (Byte.to_N b) + 256 * acc) 0 bs.

(** The four bytes of a [uint32_t] in memory. *)
Definition le_u32 (v : Z) : list byte :=
  map (fun i => match Byte.of_N (Z.to_N (Z.land (Z.shiftr v (8 * i)) 0xFF)) with
                | Some b => b
                | None => x00%byte
                end) [0; 1; 2; 3].

Definition wrap32 (x : Z) : Z := x mod 2 ^ 32.
Definition wrap64 (x : Z) : Z := x mod 2 ^ 64.

(** The calls the three routines make, in the order they make them, with the
    arguments that matter and, for calls whose result is used or discarded,
    the result. *)
Inductive Event : Type :=
| EvGetDownloadFileSize (url : string) (res size : Z)
| EvDownloadFile (url dst : string) (res : Z)
| EvReadFile (path : string) (size : nat) (res : Z)
| EvIoRemove (path : string)
| EvInitMessageDialog (buttons message arg : string)
| EvSetDialogStep (step : DialogStep)
| EvDelayThread (usec : Z)
| EvDownloadFileProcess (url dst : string) (step : DialogStep) (res : Z)
| EvExitDeleteThread (status : Z)
| EvRemovePath (path : string)
| EvIoMkdir (path : string) (mode : Z)
| EvWriteFile (path : string) (size : Z)
| EvMakeHeadBin (res : Z)
| EvPromoteApp (path : string) (res : Z)
| EvPowerLock
| EvPowerUnlock
| EvProgressBarSetValue (value : Z)
| EvArchiveClearPassword
| EvArchiveOpen (path : string) (res : Z)
| EvCloseWaitDialog
| EvErrorDialog (error : Z)
| EvGetArchivePathInfo (path : string) (size folders files : Z)
| EvCreateStartUpdateThread (max show_progress thid : Z)
| EvExtractArchivePath (src dst : string) (max res : Z)
| EvMsgDialogClose
| EvWaitThreadEnd (thid : Z).

Definition is_power_lock (e : Event) : bool :=
  match e with EvPowerLock => true | _ => false end.

Definition is_power_unlock (e : Event) : bool :=
  match e with EvPowerUnlock => true | _ => false end.

(** An event that prompts the user or writes the Dialog Step. *)
Definition is_dialog_event (e : Event) : bool :=
  match e with
  | EvInitMessageDialog _ _ _ | EvSetDialogStep _ | EvErrorDialog _
  | EvDownloadFileProcess _ _ _ _ => true
  | _ => false
  end.



(** [a] is immediately followed by [b] somewhere in the log. *)
Fixpoint follows (a b : Event) (l : list Event) : Prop :=
  match l with
  | x :: tl =>
      match tl with
      | y :: _ => (x = a /\ y = b) \/ follows a b tl
      | [] => False
      end
  | [] => False
  end.

(** The world the routines act on. *)
Record World : Type := mkWorld {
  fs : FS;                      (* persistent storage *)
  installed : option FS;        (* the package last promoted, if any *)
  dialog_step : DialogStep;     (* the Dialog State Store *)
  progress_bar : Z;             (* the value the progress bar shows *)
  progress_value : Z;           (* the extraction's progress counter *)
  power_locks : Z;              (* how often the power lock is held *)
  worker : option Z             (* the maximum of the running reporting worker *)
}.

Definition set_fs (f : FS -> FS) (w : World) : World :=
  mkWorld (f (fs w)) (installed w) (dialog_step w) (progress_bar w)
          (progress_value w) (power_locks w) (worker w).

Definition set_installed (i : option FS) (w : World) : World :=
  mkWorld (fs w) i (dialog_step w) (progress_bar w) (progress_value w)
          (power_locks w) (worker w).

Definition set_dialog_step (s : DialogStep) (w : World) : World :=
  mkWorld (fs w) (installed w) s (progress_bar w) (progress_value w)
          (power_locks w) (worker w).

Definition set_progress_bar (v : Z) (w : World) : World :=
  mkWorld (fs w) (installed w) (dialog_step w) v (progress_value w)
          (power_locks w) (worker w).

Definition set_progress_value (v : Z) (w : World) : World :=
  mkWorld (fs w) (installed w) (dialog_step w) (progress_bar w) v
          (power_locks w) (worker w).

Definition set_power_locks (n : Z) (w : World) : World :=
  mkWorld (fs w) (installed w) (dialog_step w) (progress_bar w)
          (progress_value w) n (worker w).

Definition set_worker (o : option Z) (w : World) : World :=
  mkWorld (fs w) (installed w) (dialog_step w) (progress_bar w)
          (progress_value w) (power_locks w) o.

(** Modelled from the spec: the percentage the reporting worker (io_process.c
    is absent) derives from the counter and the maximum: the ratio mapped
    onto 0 to 100, never above 100. *)
Definition percentage (value max : Z) : Z :=
  if max <=? value then 100 else 100 * value / max.

(** Modelled from the spec: the reporting worker, when there is one, reads
    the counter value [v] and pushes the derived percentage to the progress
    bar. *)
Definition worker_push (v : Z) (w : World) : World :=
  match worker w with
  | Some max => set_progress_bar (percentage v max) w
  | None => w
  end.

(** The constants the routines take from headers that are not part of the
    sources at hand, and the two embedded updater blobs. *)
Record Config : Type := mkConfig {
  DUALSHELLCOMMANDER_VERSION : Z;
  DIRECTORY_SIZE : Z;
  DIALOG_WAIT : Z;
  COUNTUP_WAIT : Z;
  HEAD_BIN : string;
  updater_eboot_bin : list byte;
  updater_param_bin : list byte
}.

(** What the collaborators answer in one run. *)
Record Env : Type := mkEnv {
  (* getDownloadFileSize: the result and the size it stores *)
  download_size : Z * Z;
  (* downloadFile: the result and the content it leaves at the destination *)
  download_file : Z * option (list byte);
  (* the Dialog Step the UI thread stores during the k-th wait, if any *)
  ui_write : nat -> option DialogStep;
  (* downloadFileProcess: the result and whether it succeeded *)
  download_process : Z * bool;
  (* archiveOpen: the result *)
  archive_open : Z;
  (* getArchivePathInfo: size, folders, files *)
  archive_info : Z * Z * Z;
  (* createStartUpdateThread: the thread id, negative on failure *)
  start_thread : Z;
  (* extractArchivePath: the result, the counter it accumulated, and what it
     did to the file system *)
  extract_res : Z;
  extract_value : Z;
  extract_fs : FS -> FS;
  (* makeHeadBin: from the staged package, the result and the header built *)
  build_head : FS -> Z * option (list byte);
  (* promoteApp: from the staged package, the result and whether the staging
     copy was consumed *)
  promote : FS -> Z * bool;
  (* the reporting worker: the counter value its last push during the
     extraction was derived from, if it pushed then; and whether it pushes
     once more, after the main thread's last write of the progress bar,
     before it ends *)
  extract_seen : option Z;
  worker_final_push : bool
}.

(** ** The monad: world passing with a log of the calls *)

Record Result (A : Type) : Type := mkResult {
  value : A;
  world : World;
  log : list Event
}.
Arguments mkResult {A}.
Arguments value {A}.
Arguments world {A}.
Arguments log {A}.

Definition M (A : Type) : Type := World -> Result A.

Definition ret {A} (a : A) : M A := fun w => mkResult a w [].

Definition bind {A B} (m : M A) (k : A -> M B) : M B := fun w =>
  let r := m w in
  let r' := k (value r) (world r) in
  mkResult (value r') (world r') (log r ++ log r').

Notation "'do' x <- m ; k" := (bind m (fun x => k))
  (at level 10, x name, m at level 100, k at level 200).
Notation "'do' ' p <- m ; k" := (bind m (fun x => match x with p => k end))
  (at level 10, p pattern, m at level 100, k at level 200).
Notation "'exec' m ; k" := (bind m (fun _ => k))
  (at level 10, m at level 100, k at level 200).

(** A call that acts on the world and is logged. *)
Definition call {A} (a : A) (f : World -> World) (e : Event) : M A :=
  fun w => mkResult a (f w) [e].

(** ** Paths and addresses ([network_update.c], lines 31-34) *)

Definition BASE_ADDRESS : string :=
  "https://raw.githubusercontent.com/TheOfficialFloW/DualShellCommander/master/releases/download".
Definition VERSION_URL : string := "/0.2/version.bin".
Definition DUALSHELLCOMMANDER_UPDATE_FILE : string :=
  "ux0:DualShellCommander/internal/DualShellCommander.vpk".
Definition DUALSHELLCOMMANDER_VERSION_FILE : string :=
  "ux0:DualShellCommander/internal/version.bin".

(** [PACKAGE_DIR] is declared in package_installer.h, which is not among the
    sources at hand; [installUpdater] creates [PACKAGE_DIR] and then writes
    the package to the literal paths [ux0:data/pkg/...], which is the value
    taken here. *)
Definition PACKAGE_DIR : string := "ux0:data/pkg".

(** The octal literal [0777]. *)
Definition mode_0777 : Z := 511.

Section Pipeline.

Variable cfg : Config.
Variable env : Env.

(** *** The collaborators *)

Definition getDialogStep : M DialogStep :=
  fun w => mkResult (dialog_step w) w [].

Definition setDialogStep (s : DialogStep) : M unit :=
  call tt (set_dialog_step s) (EvSetDialogStep s).

(** Modelled from the spec: [getDownloadFileSize(url, &size)]
    (network_download.c is absent) reports the remote content size; here the
    result, and the size it stores. *)
Definition getDownloadFileSize (url : string) : M (Z * Z) :=
  call (download_size env) id
       (EvGetDownloadFileSize url (fst (download_size env)) (snd (download_size env))).

(** Modelled from the spec: [downloadFile] (network_download.c is absent)
    streams the content to a local path and returns a byte count or a
    negative error. *)
Definition downloadFile (url dst : string) : M Z :=
  call (fst (download_file env))
       (set_fs (match snd (download_file env) with
                | Some data => fs_write dst data
                | None => id
                end))
       (EvDownloadFile url dst (fst (download_file env))).

(** [ReadFile(path, buf, size)]: the number of bytes read, or a negative
    error; and the bytes. *)
Definition ReadFile (path : string) (size : nat) : M (Z * list byte) :=
  fun w =>
    let r := match fs_read path size (fs w) with
             | Some data => (Z.of_nat (length data), data)
             | None => (-1, [])
             end in
    mkResult r w [EvReadFile path size (fst r)].

Definition sceIoRemove (path : string) : M unit :=
  call tt (set_fs (fs_remove path)) (EvIoRemove path).

(** Modelled from the spec: [initMessageDialog] (message_dialog.c is absent)
    is the dialog-init function of the collaborator API. *)
Definition initMessageDialog (buttons message arg : string) : M unit :=
  call tt id (EvInitMessageDialog buttons message arg).

Definition sceKernelDelayThread (usec : Z) : M unit :=
  call tt id (EvDelayThread usec).

(** While the thread sleeps for the [k]-th time in its wait loop, the UI
    thread may store the user's answer. *)
Definition ui_thread (k : nat) : M unit :=
  fun w => mkResult tt (match ui_write env k with
                        | Some s => set_dialog_step s w
                        | None => w
                        end) [].

(** Modelled from the spec: [downloadFileProcess] (network_download.c is
    absent) downloads the package and signals the result by setting Dialog
    Step to the step it is given on success. *)
Definition downloadFileProcess (url dst : string) (step : DialogStep) : M Z :=
  call (fst (download_process env))
       (fun w => if snd (download_process env) then set_dialog_step step w else w)
       (EvDownloadFileProcess url dst step (fst (download_process env))).

Definition sceKernelExitDeleteThread (status : Z) : M Z :=
  call 0 id (EvExitDeleteThread status).

Definition removePath (path : string) : M unit :=
  call tt (set_fs (fs_removePath path)) (EvRemovePath path).

Definition sceIoMkdir (path : string) (mode : Z) : M unit :=
  call tt (set_fs (fs_mkdir path)) (EvIoMkdir path mode).

Definition WriteFile (path : string) (data : list byte) : M unit :=
  call tt (set_fs (fs_write path data)) (EvWriteFile path (Z.of_nat (length data))).

(** Modelled from the spec: [makeHeadBin] (package_installer.c is absent)
    constructs the header/manifest file of the staged package; its result
    is negative on failure. *)
Definition makeHeadBin : M Z :=
  fun w =>
    let r := build_head env (subtree PACKAGE_DIR (fs w)) in
    mkResult (fst r)
             (match snd r with
              | Some hdr => set_fs (fs_write (HEAD_BIN cfg) hdr) w
              | None => w
              end)
             [EvMakeHeadBin (fst r)].

(** Modelled from the spec: [promoteApp] (package_installer.c is absent)
    makes the staged directory the active installation; the staging copy
    may be consumed by it. *)
Definition promoteApp (path : string) : M Z :=
  fun w =>
    let pkg := subtree path (fs w) in
    let r := promote env pkg in
    let w1 := if 0 <=? fst r then set_installed (Some pkg) w else w in
    let w2 := if snd r then set_fs (fs_removePath path) w1 else w1 in
    mkResult (fst r) w2 [EvPromoteApp path (fst r)].

(** Modelled from the spec: [powerLock] and [powerUnlock] (absent) acquire
    and release the power-management lock. *)
Definition powerLock : M unit :=
  fun w => mkResult tt (set_power_locks (power_locks w + 1) w) [EvPowerLock].

Definition powerUnlock : M unit :=
  fun w => mkResult tt (set_power_locks (power_locks w - 1) w) [EvPowerUnlock].

Definition sceMsgDialogProgressBarSetValue (v : Z) : M unit :=
  call tt (set_progress_bar v) (EvProgressBarSetValue v).

(** Modelled from the spec: [archiveClearPassword], [archiveOpen],
    [getArchivePathInfo] and [extractArchivePath] (archive.c is absent) are
    the archive gateway: password reset, open, entry sizes and counts,
    extraction under a progress callback. *)
Definition archiveClearPassword : M unit :=
  call tt id EvArchiveClearPassword.

Definition archiveOpen (path : string) : M Z :=
  call (archive_open env) id (EvArchiveOpen path (archive_open env)).

(** Modelled from the spec: [closeWaitDialog] (absent) closes the dialog. *)
Definition closeWaitDialog : M unit :=
  call tt id EvCloseWaitDialog.

(** Modelled from the spec: [errorDialog] (absent) is the generic
    error-dialog collaborator keyed by a numeric result code. *)
Definition errorDialog (error : Z) : M unit :=
  call tt id (EvErrorDialog error).

(** [getArchivePathInfo(path, &size, &folders, &files, NULL)]. *)
Definition getArchivePathInfo (path : string) : M (Z * Z * Z) :=
  call (archive_info env) id
       (EvGetArchivePathInfo path (fst (fst (archive_info env)))
                             (snd (fst (archive_info env)))
                             (snd (archive_info env))).

(** Modelled from the spec: [createStartUpdateThread] (io_process.c is
    absent) spawns the secondary progress-reporting worker and returns its
    thread id, negative when the worker could not be started.  Until it has
    ended, the worker periodically reads the counter and pushes the derived
    percentage to the progress bar. *)
Definition createStartUpdateThread (max show_progress : Z) : M Z :=
  call (start_thread env)
       (set_worker (if 0 <=? start_thread env then Some max else None))
       (EvCreateStartUpdateThread max show_progress (start_thread env)).

(** [extractArchivePath(src, dst, &param)], [param.value] being the
    counter and [param.max] the maximum.  While the extraction runs the
    worker may push percentages; the progress bar shows the last of them. *)
Definition extractArchivePath (src dst : string) (max : Z) : M Z :=
  call (extract_res env)
       (fun w =>
          let w' := set_progress_value (extract_value env) (set_fs (extract_fs env) w) in
          match extract_seen env with
          | Some v => worker_push v w'
          | None => w'
          end)
       (EvExtractArchivePath src dst max (extract_res env)).

Definition sceMsgDialogClose : M unit :=
  call tt id EvMsgDialogClose.

(** [sceKernelWaitThreadEnd] returns when the worker has ended.  After the
    extraction the counter no longer changes, so whatever the worker still
    pushed is the percentage of the counter's final value; it counts when it
    came after the main thread's last write of the progress bar. *)
Definition sceKernelWaitThreadEnd (thid : Z) : M unit :=
  call tt
       (fun w => set_worker None
                   (if worker_final_push env then worker_push (progress_value w) w else w))
       (EvWaitThreadEnd thid).

(** *** [network_update_thread] (lines 41-87) *)

(** The [EXIT] label of both threads' tails: [return sceKernelExitDeleteThread(0);] *)
Definition thread_exit : M Z := sceKernelExitDeleteThread 0.

(** Lines 49-50: [uint32_t version = 0; ReadFile(FILE, &version, sizeof(uint32_t));]
    The result of [ReadFile] is dropped; the bytes read, if any, overwrite
    the start of the variable. *)
Definition read_version : M Z :=
  do r <- ReadFile DUALSHELLCOMMANDER_VERSION_FILE 4;
  ret (le_decode (store_bytes (snd r) (le_u32 0))).

(** Lines 70-72: [while (getDialogStep() == DIALOG_STEP_UPDATE_QUESTION)
    sceKernelDelayThread(10 * 1000);].  [true]: the loop was left; [false]:
    the thread is still waiting when the fuel is used up.  [k] counts the
    sleeps. *)
Fixpoint wait_for_response (fuel k : nat) : M bool :=
  do s <- getDialogStep;
  if decide (s = DIALOG_STEP_UPDATE_QUESTION) then
    match fuel with
    | O => ret false
    | S fuel' =>
        exec sceKernelDelayThread (10 * 1000);
        exec ui_thread k;
        wait_for_response fuel' (S k)
    end
  else ret true.

(** The thread's return value, or [None] while it still waits for the
    user's answer. *)
Definition network_update_thread (fuel : nat) : M (option Z) :=
  do r <- getDownloadFileSize (BASE_ADDRESS +:+ VERSION_URL);
  if (0 <=? fst r) && (snd r =? 4) then
    do res <- downloadFile (BASE_ADDRESS +:+ VERSION_URL) DUALSHELLCOMMANDER_VERSION_FILE;
    if res <=? 0 then
      do x <- thread_exit; ret (Some x)
    else
      (* Read version *)
      do version <- read_version;
      exec sceIoRemove DUALSHELLCOMMANDER_VERSION_FILE;
      (* Only show update question if no dialog is running *)
      do step <- getDialogStep;
      if decide (step = DIALOG_STEP_NONE) then
        (* New update available *)
        if wrap32 (DUALSHELLCOMMANDER_VERSION cfg) <? version then
          (* Update question *)
          exec initMessageDialog "SCE_MSG_DIALOG_BUTTON_TYPE_YESNO" "UPDATE_QUESTION"
                                 (Version.version_string version);
          exec setDialogStep DIALOG_STEP_UPDATE_QUESTION;
          (* Wait for response *)
          do answered <- wait_for_response fuel 0;
          if answered then
            do step' <- getDialogStep;
            if decide (step' = DIALOG_STEP_NONE) then
              (* No *)
              do x <- thread_exit; ret (Some x)
            else
              (* Yes *)
              do x <- downloadFileProcess (BASE_ADDRESS +:+ "/DualShellCommander.vpk")
                                          DUALSHELLCOMMANDER_UPDATE_FILE
                                          DIALOG_STEP_DOWNLOADED;
              ret (Some x)
          else ret None
        else do x <- thread_exit; ret (Some x)
      else do x <- thread_exit; ret (Some x)
  else do x <- thread_exit; ret (Some x).

(** *** [installUpdater] (lines 89-106) *)

Definition installUpdater : M unit :=
  (* Recursively clean up pkg directory *)
  exec removePath PACKAGE_DIR;
  exec sceIoMkdir PACKAGE_DIR mode_0777;
  (* Make dir *)
  exec sceIoMkdir "ux0:data/pkg/sce_sys" mode_0777;
  (* Write DualShellCommander updater files *)
  exec WriteFile "ux0:data/pkg/eboot.bin" (updater_eboot_bin cfg);
  exec WriteFile "ux0:data/pkg/sce_sys/param.sfo" (updater_param_bin cfg);
  (* Make head.bin *)
  do _ <- makeHeadBin;
  (* Promote app *)
  do _ <- promoteApp PACKAGE_DIR;
  ret tt.

(** *** [update_extract_thread] (lines 108-190) *)

(** [size + folders * DIRECTORY_SIZE], with [uint64_t size] and
    [uint32_t folders]; [DIRECTORY_SIZE] is a macro of a header that is not
    among the sources at hand, taken as an [int] constant: the product is
    an [unsigned int] product, the sum a [uint64_t] sum. *)
Definition progress_max (size folders : Z) : Z :=
  wrap64 (size + wrap32 (folders * DIRECTORY_SIZE cfg)).

(** The [EXIT] label (lines 182-189). *)
Definition extract_exit (thid : Z) : M Z :=
  exec (if 0 <=? thid then sceKernelWaitThreadEnd thid else ret tt);
  (* Unlock power timers *)
  exec powerUnlock;
  sceKernelExitDeleteThread 0.

(** Lines 111-123: up to the point where the archive is opened. *)
Definition update_extract_prepare : M unit :=
  (* Lock power timers *)
  exec powerLock;
  (* Set progress to 0% *)
  exec sceMsgDialogProgressBarSetValue 0;
  exec sceKernelDelayThread (DIALOG_WAIT cfg);
  (* Install updater *)
  exec installUpdater;
  (* Recursively clean up pkg directory *)
  exec removePath PACKAGE_DIR;
  sceIoMkdir PACKAGE_DIR mode_0777.

(** Lines 125-189: from opening the archive on; [thid] is still [-1] when
    the archive does not open. *)
Definition update_extract_archive : M Z :=
  (* Open archive *)
  exec archiveClearPassword;
  do res <- archiveOpen DUALSHELLCOMMANDER_UPDATE_FILE;
  if res <? 0 then
    exec closeWaitDialog;
    exec errorDialog res;
    extract_exit (-1)
  else
    (* Src path *)
    let src_path := DUALSHELLCOMMANDER_UPDATE_FILE +:+ "/" in
    (* Get archive path info *)
    do info <- getArchivePathInfo src_path;
    let size := fst (fst info) in
    let folders := snd (fst info) in
    (* Update thread *)
    do thid <- createStartUpdateThread (progress_max size folders) 1;
    (* Extract process *)
    do res <- extractArchivePath src_path (PACKAGE_DIR +:+ "/") (progress_max size folders);
    if res <=? 0 then
      exec closeWaitDialog;
      exec setDialogStep DIALOG_STEP_CANCELED;
      exec errorDialog res;
      extract_exit thid
    else
      (* Remove update file *)
      exec sceIoRemove DUALSHELLCOMMANDER_UPDATE_FILE;
      (* Make head.bin *)
      do res <- makeHeadBin;
      if res <? 0 then
        exec closeWaitDialog;
        exec errorDialog res;
        extract_exit thid
      else
        (* Set progress to 100% *)
        exec sceMsgDialogProgressBarSetValue 100;
        exec sceKernelDelayThread (COUNTUP_WAIT cfg);
        (* Close *)
        exec sceMsgDialogClose;
        exec setDialogStep DIALOG_STEP_EXTRACTED;
        extract_exit thid.

Definition update_extract_thread : M Z :=
  exec update_extract_prepare;
  update_extract_archive.

End Pipeline.

(** ** Observations on worlds and logs *)

(** The staged package: the file system at and below [PACKAGE_DIR]. *)
Definition staged (w : World) : FS := subtree PACKAGE_DIR (fs w).


(** A log without any prompt or Dialog Step write. *)
Definition quiet (l : list Event) : bool :=
  forallb (fun e => negb (is_dialog_event e)) l.



(** The three fatal failures of the extraction, read off the log: the archive
    did not open; the extraction returned a non-positive result; the
    manifest regeneration that follows the removal of the update file
    returned a negative result. *)
Definition archive_open_failure (l : list Event) (res : Z) : Prop :=
  In (EvArchiveOpen DUALSHELLCOMMANDER_UPDATE_FILE res) l /\ res < 0.


Definition manifest_failure (l : list Event) (res : Z) : Prop :=
  follows (EvIoRemove DUALSHELLCOMMANDER_UPDATE_FILE) (EvMakeHeadBin res) l /\ res < 0.

(** The four ways through [update_extract_thread]; [rh] is the result of the
    manifest regeneration. *)
Inductive Outcome : Type :=
| OpenFailed
| ExtractFailed
| ManifestFailed (rh : Z)
| Extracted (rh : Z).

(** The results that lead to each outcome. *)
Definition outcome_results (env : Env) (o : Outcome) : Prop :=
  match o with
  | OpenFailed => archive_open env < 0
  | ExtractFailed => 0 <= archive_open env /\ extract_res env <= 0
  | ManifestFailed rh => 0 <= archive_open env /\ 0 < extract_res env /\ rh < 0
  | Extracted rh => 0 <= archive_open env /\ 0 < extract_res env /\ 0 <= rh
  end.

(** The calls of lines 111-123, [r1] and [r2] being the results of
    [makeHeadBin] and [promoteApp] that [installUpdater] drops. *)
Definition prepare_log (cfg : Config) (r1 r2 : Z) : list Event :=
  [EvPowerLock; EvProgressBarSetValue 0; EvDelayThread (DIALOG_WAIT cfg);
   EvRemovePath PACKAGE_DIR; EvIoMkdir PACKAGE_DIR mode_0777;
   EvIoMkdir "ux0:data/pkg/sce_sys" mode_0777;
   EvWriteFile "ux0:data/pkg/eboot.bin" (Z.of_nat (length (updater_eboot_bin cfg)));
   EvWriteFile "ux0:data/pkg/sce_sys/param.sfo" (Z.of_nat (length (updater_param_bin cfg)));
   EvMakeHeadBin r1; EvPromoteApp PACKAGE_DIR r2;
   EvRemovePath PACKAGE_DIR; EvIoMkdir PACKAGE_DIR mode_0777].

(** The calls of lines 126-127. *)
Definition open_log (env : Env) : list Event :=
  [EvArchiveClearPassword; EvArchiveOpen DUALSHELLCOMMANDER_UPDATE_FILE (archive_open env)].

(** The calls of lines 140-154. *)
Definition extract_log (cfg : Config) (env : Env) : list Event :=
  let size := fst (fst (archive_info env)) in
  let folders := snd (fst (archive_info env)) in
  [EvGetArchivePathInfo (DUALSHELLCOMMANDER_UPDATE_FILE +:+ "/") size folders
                        (snd (archive_info env));
   EvCreateStartUpdateThread (progress_max cfg size folders) 1 (start_thread env);
   EvExtractArchivePath (DUALSHELLCOMMANDER_UPDATE_FILE +:+ "/") (PACKAGE_DIR +:+ "/")
                        (progress_max cfg size folders) (extract_res env)].

(** The calls of the [EXIT] label (lines 182-189). *)
Definition exit_log (thid : Z) : list Event :=
  (if 0 <=? thid then [EvWaitThreadEnd thid] else []) ++
  [EvPowerUnlock; EvExitDeleteThread 0].

(** The calls between the opening of the archive and the [EXIT] label on
    each way. *)
Definition outcome_log (cfg : Config) (env : Env) (o : Outcome) : list Event :=
  match o with
  | OpenFailed =>
      [EvCloseWaitDialog; EvErrorDialog (archive_open env)]
  | ExtractFailed =>
      extract_log cfg env ++
      [EvCloseWaitDialog; EvSetDialogStep DIALOG_STEP_CANCELED;
       EvErrorDialog (extract_res env)]
  | ManifestFailed rh =>
      extract_log cfg env ++
      [EvIoRemove DUALSHELLCOMMANDER_UPDATE_FILE; EvMakeHeadBin rh;
       EvCloseWaitDialog; EvErrorDialog rh]
  | Extracted rh =>
      extract_log cfg env ++
      [EvIoRemove DUALSHELLCOMMANDER_UPDATE_FILE; EvMakeHeadBin rh;
       EvProgressBarSetValue 100; EvDelayThread (COUNTUP_WAIT cfg);
       EvMsgDialogClose; EvSetDialogStep DIALOG_STEP_EXTRACTED]
  end.

(** The value of [thid] at the [EXIT] label. *)
Definition thid_at_exit (env : Env) (o : Outcome) : Z :=
  match o with
  | OpenFailed => -1
  | _ => start_thread env
  end.

(** The calls of lines 125-189 on each way through them. *)
Definition archive_log (cfg : Config) (env : Env) (o : Outcome) : list Event :=
  open_log env ++ outcome_log cfg env o ++ exit_log (thid_at_exit env o).

(** The Dialog Step each way ends in, [before] being the step at the start:
    only the cancellation and the completion write it. *)
Definition final_step (before : DialogStep) (o : Outcome) : DialogStep :=
  match o with
  | OpenFailed => before
  | ExtractFailed => DIALOG_STEP_CANCELED
  | ManifestFailed _ => before
  | Extracted _ => DIALOG_STEP_EXTRACTED
  end.

(** ** Sample inputs *)

(** Running version 1.0, a directory weight of 100. *)
Definition sample_cfg : Config :=
  mkConfig 0x01000000 100 1000 2000 "ux0:data/pkg/sce_sys/package/head.bin"
           [x7f; x45; x4c; x46]%byte [x00; x50; x53; x46]%byte.

(** An idle device with an empty storage. *)
Definition sample_world : World := mkWorld ∅ None DIALOG_STEP_NONE 0 0 0 None.

(** The same device while another dialog is shown. *)
Definition busy_world : World := mkWorld ∅ None DIALOG_STEP_CANCELED 0 0 0 None.

(** The collaborators' answers, given the descriptor that is downloaded, the
    results of [archiveOpen] and [extractArchivePath], the archive's size and
    directory count, and the result of [makeHeadBin]; the user declines
    during the third sleep; the counter reaches the maximum; the worker
    pushes at half of the size and once more before it ends. *)
Definition sample_env (descriptor : option (list byte))
           (open_res extract size folders head : Z) : Env :=
  mkEnv (0, 4) (4, descriptor)
        (fun k => if Nat.eqb k 2 then Some DIALOG_STEP_NONE else None)
        (1, true)
        open_res (size, folders, 5) 7
        extract (progress_max sample_cfg size folders)
        (fun f => fs_write "ux0:data/pkg/eboot.bin" [] f)
        (fun _ => (head, if head <? 0 then None else Some []))
        (fun _ => (0, true))
        (Some (size / 2)) true.

(** Remote version 1.2; an archive of 1000 bytes and 2 directories that
    extracts. *)
Definition env_ok : Env :=
  sample_env (Some (le_u32 0x01200000)) 0 1 1000 2 0.

(** The descriptor is not there after the download. *)
Definition env_no_descriptor : Env := sample_env None 0 1 1000 2 0.

(** The archive does not open. *)
Definition env_open_fails : Env :=
  sample_env (Some (le_u32 0x01200000)) (-5) 1 1000 2 0.

(** The extraction is cancelled. *)
Definition env_extract_fails : Env :=
  sample_env (Some (le_u32 0x01200000)) 0 0 1000 2 0.


(** An archive that reports the largest size a [uint64_t] holds. *)
Definition env_huge : Env :=
  sample_env (Some (le_u32 0x01200000)) 0 1 (2 ^ 64 - 1) 1 0.

(** An archive with so many directories that their weight passes [2^32]. *)
Definition env_many_folders : Env :=
  sample_env (Some (le_u32 0x01200000)) 0 1 1000 42949673 0.

Arguments fs_removePath : simpl never.
Arguments fs_mkdir : simpl never.
Arguments fs_write : simpl never.
Arguments fs_remove : simpl never.
Arguments fs_read : simpl never.
Arguments subtree : simpl never.
Arguments le_u32 : simpl never.
Arguments le_decode : simpl never.
Arguments store_bytes : simpl never.
Arguments wrap32 : simpl never.
Arguments wrap64 : simpl never.
Arguments makeHeadBin : simpl never.
Arguments promoteApp : simpl never.
Arguments installUpdater : simpl never.
Arguments extract_exit : simpl never.

(** ** Further observations *)

(** The sleeps of the wait loop. *)
Definition sleeps (n : nat) : list Event := repeat (EvDelayThread (10 * 1000)) n.

(** The UI thread stores nothing that ends the wait during the [j]-th sleep. *)
Definition ui_silent (env : Env) (j : nat) : Prop :=
  ui_write env j = None \/ ui_write env j = Some DIALOG_STEP_UPDATE_QUESTION.

(** The calls of lines 43-67 when the update is offered. *)
Definition prompt_log (res0 res1 remote : Z) : list Event :=
  [EvGetDownloadFileSize (BASE_ADDRESS +:+ VERSION_URL) res0 4;
   EvDownloadFile (BASE_ADDRESS +:+ VERSION_URL) DUALSHELLCOMMANDER_VERSION_FILE res1;
   EvReadFile DUALSHELLCOMMANDER_VERSION_FILE 4 4;
   EvIoRemove DUALSHELLCOMMANDER_VERSION_FILE;
   EvInitMessageDialog "SCE_MSG_DIALOG_BUTTON_TYPE_YESNO" "UPDATE_QUESTION"
                       (Version.version_string remote);
   EvSetDialogStep DIALOG_STEP_UPDATE_QUESTION].

(** The conditions under which lines 43-67 offer the update: the size check
    passes, the download succeeds and leaves the four bytes of [remote],
    no dialog is running, and [remote] is greater than the running version. *)
Definition update_offered (cfg : Config) (env : Env) (w : World)
           (res0 res1 remote : Z) : Prop :=
  Version.is_u32 remote /\
  Version.is_u32 (DUALSHELLCOMMANDER_VERSION cfg) /\
  download_size env = (res0, 4) /\ 0 <= res0 /\
  download_file env = (res1, Some (le_u32 remote)) /\ 0 < res1 /\
  dialog_step w = DIALOG_STEP_NONE /\
  DUALSHELLCOMMANDER_VERSION cfg < remote.

(** Lines 69-80, as [network_update_thread] runs them after the prompt. *)
Definition await_response (env : Env) (fuel : nat) : M (option Z) :=
  (* Wait for response *)
  do answered <- wait_for_response env fuel 0;
  if answered then
    do step' <- getDialogStep;
    if decide (step' = DIALOG_STEP_NONE) then
      (* No *)
      do x <- thread_exit; ret (Some x)
    else
      (* Yes *)
      do x <- downloadFileProcess env (BASE_ADDRESS +:+ "/DualShellCommander.vpk")
                                  DUALSHELLCOMMANDER_UPDATE_FILE
                                  DIALOG_STEP_DOWNLOADED;
      ret (Some x)
  else ret None.

(** The world in which the response is awaited. *)
Definition world_at_prompt (w : World) (remote : Z) : World :=
  set_dialog_step DIALOG_STEP_UPDATE_QUESTION
    (set_fs (fs_remove DUALSHELLCOMMANDER_VERSION_FILE)
       (set_fs (fs_write DUALSHELLCOMMANDER_VERSION_FILE (le_u32 remote)) w)).

(** The sample collaborators with another UI thread. *)
Definition with_ui (ui : nat -> option DialogStep) (e : Env) : Env :=
  mkEnv (download_size e) (download_file e) ui (download_process e)
        (archive_open e) (archive_info e) (start_thread e)
        (extract_res e) (extract_value e) (extract_fs e) (build_head e) (promote e)
        (extract_seen e) (worker_final_push e).

(** The user accepts during the second sleep. *)
Definition env_accepts : Env :=
  with_ui (fun k => if Nat.eqb k 1 then Some (DIALOG_STEP_OTHER 0) else None) env_ok.

(** The user never answers. *)
Definition env_silent : Env := with_ui (fun _ => None) env_ok.

(** The worker cannot be started. *)
Definition env_no_worker : Env :=
  mkEnv (download_size env_ok) (download_file env_ok) (ui_write env_ok)
        (download_process env_ok) (archive_open env_ok) (archive_info env_ok) (-1)
        (extract_res env_ok) (extract_value env_ok) (extract_fs env_ok)
        (build_head env_ok) (promote env_ok)
        (extract_seen env_ok) (worker_final_push env_ok).

(** The promotion leaves the staging copy in place. *)
Definition env_keeps_staging : Env :=
  mkEnv (download_size env_ok) (download_file env_ok) (ui_write env_ok)
        (download_process env_ok) (archive_open env_ok) (archive_info env_ok)
        (start_thread env_ok) (extract_res env_ok) (extract_value env_ok)
        (extract_fs env_ok) (build_head env_ok) (fun _ => (0, false))
        (extract_seen env_ok) (worker_final_push env_ok).

(** A storage with a leftover of an earlier attempt and an unrelated file. *)
Definition stale_world : World :=
  mkWorld (<["ux0:data/pkg/old.bin" := File [x01%byte]]>
           (<["ux0:data/pkg" := Dir]>
            (<["ux0:data/savedata.bin" := File [x02%byte]]> ∅)))
          None DIALOG_STEP_NONE 0 0 0 None.

(** [m] creates nothing at [path]. *)
Definition keeps_absent {A} (path : string) (m : M A) : Prop :=
  forall w, fs w !! path = None -> fs (world (m w)) !! path = None.

(** The paths [installUpdater] writes to. *)
Definition installer_paths (cfg : Config) : list string :=
  [PACKAGE_DIR; "ux0:data/pkg/sce_sys"; "ux0:data/pkg/eboot.bin";
   "ux0:data/pkg/sce_sys/param.sfo"; HEAD_BIN cfg].

Arguments await_response : simpl never.
Arguments sleeps : simpl never.

(** ** Proof steps that recur *)

(** Case analysis of membership in a log that is written out. *)
Ltac in_log H :=
  repeat match type of H with
         | _ \/ _ => destruct H as [H|H]
         | _ /\ _ => let H1 := fresh "H" in destruct H as [H1 H]; try discriminate H1
         | False => destruct H
         | _ = _ => first [discriminate H | injection H as ?; subst]
         end.

Ltac unfold_logs :=
  unfold prepare_log, archive_log, outcome_log, thid_at_exit, open_log, extract_log,
    exit_log in *.

(** Finding an event, or two adjacent events, in a log that is written out. *)
Ltac find_in := cbn; repeat (first [left; reflexivity | right]).
Ltac find_follows := cbn; repeat (first [left; split; reflexivity | right]).

(** * Properties *)

(** ** Version strings *)

Example version_string_1_2 : Version.version_string 0x01200000 = "1.2".
Proof. reflexivity. Qed.

Example version_string_1_05 : Version.version_string 0x01050000 = "1.05".
Proof. reflexivity. Qed.

Lemma hex_digit_range (d : Z) :
  0 <= d < 16 ->
  d = 0 \/ d = 1 \/ d = 2 \/ d = 3 \/ d = 4 \/ d = 5 \/ d = 6 \/ d = 7 \/
  d = 8 \/ d = 9 \/ d = 10 \/ d = 11 \/ d = 12 \/ d = 13 \/ d = 14 \/ d = 15.
Proof. lia. Qed.

(** With a major below 16, which [%X] prints as one digit, index 3 of the
    buffer is the last digit of the minor, and the code formats the version
    the way the specification describes. *)
Lemma version_string_one_digit_major (v : Z) :
  0 <= Version.major v < 16 ->
  0 <= Version.minor v < 256 ->
  Version.version_string v = Version.spec_version_string v.
Proof.
  intros Hmajor Hminor.
  unfold Version.version_string, Version.spec_version_string, Version.sprintf_version,
    Version.fmt_X, Version.fmt_02X.
  replace (Version.major v <? 16) with true by lia.
  assert (Hlo : 0 <= Version.minor v mod 16 < 16) by (apply Z.mod_pos_bound; lia).
  generalize (Version.hex_digit (Version.major v)) (Version.hex_digit (Version.minor v / 16)).
  intros a b.
  destruct (hex_digit_range _ Hlo) as
    [E|[E|[E|[E|[E|[E|[E|[E|[E|[E|[E|[E|[E|[E|[E|E]]]]]]]]]]]]]]];
    rewrite E; reflexivity.
Qed.

(** C5 (code defect): the code tests index 3 of the buffer, which is the last
    digit of the minor only when the major prints as a single digit.  For the
    encoded version [0x10050000] (major 0x10, minor 0x05) the buffer is
    "10.05", index 3 holds the first digit of the minor, and the code cuts
    the string down to "10." where the specified format is "10.05". *)
Theorem C5_version_string_two_digit_major :
  Version.version_string 0x10050000 = "10." /\
  Version.spec_version_string 0x10050000 = "10.05" /\
  Version.version_string 0x10200000 = "10.20" /\
  Version.spec_version_string 0x10200000 = "10.2".
Proof. repeat split; reflexivity. Qed.

(** ** Running a sequence *)

Lemma value_bind {A B} (m : M A) (k : A -> M B) w :
  value (bind m k w) = value (k (value (m w)) (world (m w))).
Proof. reflexivity. Qed.

Lemma world_bind {A B} (m : M A) (k : A -> M B) w :
  world (bind m k w) = world (k (value (m w)) (world (m w))).
Proof. reflexivity. Qed.

Lemma log_bind {A B} (m : M A) (k : A -> M B) w :
  log (bind m k w) = log (m w) ++ log (k (value (m w)) (world (m w))).
Proof. reflexivity. Qed.

(** ** The file system *)

Section FileSystem.

Implicit Types (fs : FS) (dir path : string).

Lemma under_refl dir : under dir dir = true.
Proof. unfold under. by rewrite String.eqb_refl. Qed.

Lemma subtree_lookup dir fs path :
  subtree dir fs !! path = if under dir path then fs !! path else None.
Proof.
  unfold subtree. rewrite map_lookup_filter.
  destruct (fs !! path) as [n|] eqn:E; simpl.
  - destruct (under dir path) eqn:U.
    + by rewrite option_guard_True.
    + rewrite option_guard_False; [done|]. simpl. congruence.
  - by destruct (under dir path).
Qed.

Lemma removePath_lookup dir fs path :
  fs_removePath dir fs !! path = if under dir path then None else fs !! path.
Proof.
  unfold fs_removePath. rewrite map_lookup_filter.
  destruct (fs !! path) as [n|] eqn:E; simpl.
  - destruct (under dir path) eqn:U.
    + rewrite option_guard_False; [done|]. simpl. congruence.
    + by rewrite option_guard_True.
  - by destruct (under dir path).
Qed.

Lemma subtree_removePath dir fs : subtree dir (fs_removePath dir fs) = ∅.
Proof.
  apply map_eq; intros k. rewrite subtree_lookup, removePath_lookup, lookup_empty.
  by destruct (under dir k).
Qed.

Lemma subtree_insert dir fs path n :
  subtree dir (<[path := n]> fs) =
  if under dir path then <[path := n]> (subtree dir fs) else subtree dir fs.
Proof.
  apply map_eq; intros k. destruct (under dir path) eqn:U.
  - rewrite subtree_lookup. destruct (decide (path = k)) as [->|Hne].
    + by rewrite U, !lookup_insert_eq.
    + rewrite !lookup_insert_ne by done. by rewrite subtree_lookup.
  - rewrite !subtree_lookup. destruct (decide (path = k)) as [->|Hne].
    + by rewrite U.
    + by rewrite lookup_insert_ne.
Qed.


Lemma subtree_mkdir dir fs path :
  subtree dir (fs_mkdir path fs) =
  if under dir path then fs_mkdir path (subtree dir fs) else subtree dir fs.
Proof.
  unfold fs_mkdir. rewrite subtree_lookup.
  destruct (under dir path) eqn:U.
  - destruct (fs !! path); [done|]. by rewrite subtree_insert, U.
  - destruct (fs !! path); [done|]. by rewrite subtree_insert, U.
Qed.

Lemma fs_read_write path size data fs :
  fs_read path size (fs_write path data fs) = Some (take size data).
Proof. unfold fs_read, fs_write. by rewrite lookup_insert_eq. Qed.

Lemma fs_remove_no_file path fs data : fs_remove path fs !! path <> Some (File data).
Proof.
  unfold fs_remove. destruct (fs !! path) as [[|d]|] eqn:E.
  - rewrite E. discriminate.
  - rewrite lookup_delete_eq. discriminate.
  - rewrite E. discriminate.
Qed.

End FileSystem.

(** ** The installer *)



Section Installer.

Variable cfg : Config.
Variable env : Env.






End Installer.

(** C9: in every run of [update_extract_thread], the part of the routine that
    opens and extracts the archive (lines 125-189) starts in the world that
    lines 111-123 leave, and in that world the package directory is an empty
    directory: the files [installUpdater] staged are not there any more. *)
Theorem C9_staging_empty_when_archive_opens (cfg : Config) (env : Env) (w : World) :
  let w1 := world (update_extract_prepare cfg env w) in
  value (update_extract_thread cfg env w) = value (update_extract_archive cfg env w1) /\
  world (update_extract_thread cfg env w) = world (update_extract_archive cfg env w1) /\
  staged w1 = {[ PACKAGE_DIR := Dir ]} /\
  fs w1 !! "ux0:data/pkg/eboot.bin" = None /\
  fs w1 !! "ux0:data/pkg/sce_sys/param.sfo" = None /\
  exists before r2,
    log (update_extract_prepare cfg env w) =
      before ++ [EvPromoteApp PACKAGE_DIR r2; EvRemovePath PACKAGE_DIR;
                 EvIoMkdir PACKAGE_DIR mode_0777].
Proof.
  cbv zeta.
  assert (Hstaged : staged (world (update_extract_prepare cfg env w)) = {[ PACKAGE_DIR := Dir ]}).
  { unfold update_extract_prepare. rewrite !world_bind.
    match goal with
    | |- staged (world (sceIoMkdir _ _ (world (removePath _ ?x)))) = _ => generalize x
    end.
    intros w1. unfold staged. cbn.
    rewrite subtree_mkdir, under_refl. unfold fs_mkdir.
    rewrite subtree_lookup, under_refl, removePath_lookup, under_refl.
    rewrite subtree_removePath. reflexivity. }
  split; [reflexivity|]. split; [reflexivity|]. split; [exact Hstaged|].
  split; [|split].
  - pose proof (subtree_lookup PACKAGE_DIR (fs (world (update_extract_prepare cfg env w)))
                               "ux0:data/pkg/eboot.bin") as H.
    fold (staged (world (update_extract_prepare cfg env w))) in H.
    rewrite Hstaged in H. symmetry. exact H.
  - pose proof (subtree_lookup PACKAGE_DIR (fs (world (update_extract_prepare cfg env w)))
                               "ux0:data/pkg/sce_sys/param.sfo") as H.
    fold (staged (world (update_extract_prepare cfg env w))) in H.
    rewrite Hstaged in H. symmetry. exact H.
  - unfold update_extract_prepare, installUpdater. rewrite !log_bind.
    eexists (_ :: _ :: _ :: _ :: _ :: _ :: _ :: _ :: _ :: nil), _. cbn. reflexivity.
Qed.

(** ** The version descriptor *)

Lemma byte_of_to (n : Z) :
  0 <= n < 256 ->
  Z.of_N (Byte.to_N (match Byte.of_N (Z.to_N n) with
                     | Some b => b
                     | None => x00%byte
                     end)) = n.
Proof.
  intros H. destruct (Byte.of_N (Z.to_N n)) as [b|] eqn:E.
  - apply Byte.to_of_N in E. rewrite E. lia.
  - apply Byte.of_N_None_iff in E. lia.
Qed.

(** Reading back the four bytes of a [uint32_t] gives the value. *)
Lemma le_decode_le_u32 (v : Z) : Version.is_u32 v -> le_decode (le_u32 v) = v.
Proof.
  intros [H0 H1]. unfold le_u32, le_decode. cbn [map fold_right].
  rewrite !byte_of_to
    by (change 0xFF with (Z.ones 8); rewrite Z.land_ones by lia;
        apply Z.mod_pos_bound; lia).
  change 0xFF with (Z.ones 8). rewrite !Z.land_ones by lia.
  rewrite !Z.shiftr_div_pow2 by lia.
  change (2 ^ (8 * 0)) with 1. change (2 ^ (8 * 1)) with 256.
  change (2 ^ (8 * 2)) with 65536. change (2 ^ (8 * 3)) with 16777216.
  change (2 ^ 8) with 256. change (2 ^ 32) with 4294967296 in H1.
  rewrite Z.div_1_r.
  replace (v / 65536) with (v / 256 / 256)
    by (rewrite Z.div_div by lia; reflexivity).
  replace (v / 16777216) with (v / 256 / 256 / 256)
    by (rewrite !Z.div_div by lia; reflexivity).
  pose proof (Z.div_mod v 256 ltac:(lia)).
  pose proof (Z.div_mod (v / 256) 256 ltac:(lia)).
  pose proof (Z.div_mod (v / 256 / 256) 256 ltac:(lia)).
  assert (v / 256 / 256 / 256 < 256).
  { repeat (apply Z.div_lt_upper_bound; [lia|]). lia. }
  assert (0 <= v / 256 / 256 / 256) by (repeat apply Z.div_pos; lia).
  rewrite (Z.mod_small (v / 256 / 256 / 256) 256) by lia.
  lia.
Qed.

Lemma store_u32 (v : Z) : store_bytes (take 4 (le_u32 v)) (le_u32 0) = le_u32 v.
Proof. reflexivity. Qed.

Lemma store_nothing (buf : list byte) : store_bytes [] buf = buf.
Proof. unfold store_bytes. by rewrite take_nil. Qed.

Lemma le_decode_zero : le_decode (le_u32 0) = 0.
Proof. reflexivity. Qed.

Lemma wrap32_nonneg (x : Z) : 0 <= wrap32 x.
Proof. unfold wrap32. apply Z.mod_pos_bound. lia. Qed.

(** ** The update check *)


(** The loop only sleeps. *)
Lemma wait_for_response_log (env : Env) (fuel : nat) : forall k w e,
  In e (log (wait_for_response env fuel k w)) -> e = EvDelayThread (10 * 1000).
Proof.
  induction fuel as [|fuel IH]; intros k w e; cbn.
  - destruct (decide (dialog_step w = DIALOG_STEP_UPDATE_QUESTION)); cbn; tauto.
  - destruct (decide (dialog_step w = DIALOG_STEP_UPDATE_QUESTION)); cbn; [|tauto].
    intros [<-|H]; [reflexivity|]. eapply IH, H.
Qed.

(** Once the user has answered, the loop is left, given enough fuel: here
    the answer arrives during the third sleep. *)
Example network_update_thread_declined :
  value (network_update_thread sample_cfg env_ok 5 sample_world) = Some 0 /\
  value (network_update_thread sample_cfg env_ok 2 sample_world) = None.
Proof. split; vm_compute; reflexivity. Qed.



(** C7: when Dialog Step is not [NONE] at the start, the thread exits without
    a prompt, whatever the collaborators answer, and Dialog Step is what it
    was. *)
Theorem C7_no_prompt_while_dialog_running
  (cfg : Config) (env : Env) (fuel : nat) (w : World) :
  dialog_step w <> DIALOG_STEP_NONE ->
  let r := network_update_thread cfg env fuel w in
  value r = Some 0 /\
  dialog_step (world r) = dialog_step w /\
  quiet (log r) = true /\
  exists before, log r = before ++ [EvExitDeleteThread 0].
Proof.
  intros Hstep. unfold network_update_thread. cbn.
  destruct ((0 <=? (download_size env).1) && ((download_size env).2 =? 4)); cbn.
  2: { repeat split; try reflexivity. eexists [_]. reflexivity. }
  destruct ((download_file env).1 <=? 0); cbn.
  { repeat split; try reflexivity. eexists [_; _]. reflexivity. }
  destruct (decide (dialog_step w = DIALOG_STEP_NONE)) as [E|_]; [contradiction|]. cbn.
  repeat split; try reflexivity. eexists [_; _; _; _]. reflexivity.
Qed.

Lemma C7_no_prompt_witness :
  let r := network_update_thread sample_cfg env_ok 5 busy_world in
  value r = Some 0 /\
  dialog_step (world r) = dialog_step busy_world /\
  quiet (log r) = true /\
  exists before, log r = before ++ [EvExitDeleteThread 0].
Proof.
  apply (C7_no_prompt_while_dialog_running sample_cfg env_ok 5 busy_world).
  simpl. discriminate.
Defined.

(** C10: the result of [ReadFile] is dropped and the version starts at 0;
    when the read fails or returns no data, the thread exits without a
    prompt, Dialog Step is what it was, and the descriptor file has been
    removed all the same. *)
Theorem C10_failed_read_aborts_silently
  (cfg : Config) (env : Env) (fuel : nat) (w : World) (res : Z) :
  let r := network_update_thread cfg env fuel w in
  In (EvReadFile DUALSHELLCOMMANDER_VERSION_FILE 4 res) (log r) ->
  res <= 0 ->
  value r = Some 0 /\
  dialog_step (world r) = dialog_step w /\
  quiet (log r) = true /\
  (exists before,
     log r = before ++ [EvIoRemove DUALSHELLCOMMANDER_VERSION_FILE; EvExitDeleteThread 0]) /\
  (forall data, fs (world r) !! DUALSHELLCOMMANDER_VERSION_FILE <> Some (File data)).
Proof.
  unfold network_update_thread, read_version, ReadFile. cbn.
  destruct ((0 <=? (download_size env).1) && ((download_size env).2 =? 4)); cbn.
  2: { intros [H|[H|[]]]; discriminate H. }
  destruct ((download_file env).1 <=? 0); cbn.
  { intros [H|[H|[H|[]]]]; discriminate H. }
  match goal with
  | |- context [fs_read ?p ?n ?f] => destruct (fs_read p n f) as [[|b data]|] eqn:Eread
  end;
    cbn [fst snd length]; rewrite ?store_nothing, ?le_decode_zero.
  - (* the read returned no data *)
    intros _ _.
    destruct (decide (dialog_step w = DIALOG_STEP_NONE)) as [E|E]; cbn.
    + replace (wrap32 (DUALSHELLCOMMANDER_VERSION cfg) <? 0) with false
        by (pose proof (wrap32_nonneg (DUALSHELLCOMMANDER_VERSION cfg)); lia).
      cbn. repeat split; try reflexivity.
      * eexists [_; _; _]. reflexivity.
      * intros data. apply fs_remove_no_file.
    + repeat split; try reflexivity.
      * eexists [_; _; _]. reflexivity.
      * intros data. apply fs_remove_no_file.
  - (* the read returned data: its result is positive *)
    intros H Hres. exfalso.
    destruct H as [H|[H|[H|[H|H]]]]; try discriminate H.
    { inversion H; subst. lia. }
    destruct (decide (dialog_step w = DIALOG_STEP_NONE)) as [E|E]; cbn in H.
    2: { destruct H as [H|[]]; discriminate H. }
    match type of H with context [if ?c then _ else _] => destruct c end; cbn in H.
    2: { destruct H as [H|[]]; discriminate H. }
    destruct H as [H|[H|H]]; try discriminate H.
    apply in_app_or in H. destruct H as [H|H].
    { apply wait_for_response_log in H. discriminate H. }
    match type of H with
    | context [wait_for_response env fuel 0%nat ?w'] =>
        destruct (wait_for_response env fuel 0%nat w') as [a w'' l']
    end.
    cbn in H. destruct a; cbn in H; [|destruct H].
    destruct (decide (dialog_step w'' = DIALOG_STEP_NONE)); cbn in H;
      destruct H as [H|[]]; discriminate H.
  - (* the read failed *)
    intros _ _.
    destruct (decide (dialog_step w = DIALOG_STEP_NONE)) as [E|E]; cbn.
    + replace (wrap32 (DUALSHELLCOMMANDER_VERSION cfg) <? 0) with false
        by (pose proof (wrap32_nonneg (DUALSHELLCOMMANDER_VERSION cfg)); lia).
      cbn. repeat split; try reflexivity.
      * eexists [_; _; _]. reflexivity.
      * intros data. apply fs_remove_no_file.
    + repeat split; try reflexivity.
      * eexists [_; _; _]. reflexivity.
      * intros data. apply fs_remove_no_file.
Qed.

Lemma C10_failed_read_witness :
  let r := network_update_thread sample_cfg env_no_descriptor 5 sample_world in
  In (EvReadFile DUALSHELLCOMMANDER_VERSION_FILE 4 (-1)) (log r) /\
  value r = Some 0 /\
  dialog_step (world r) = dialog_step sample_world /\
  quiet (log r) = true /\
  (exists before,
     log r = before ++ [EvIoRemove DUALSHELLCOMMANDER_VERSION_FILE; EvExitDeleteThread 0]) /\
  (forall data, fs (world r) !! DUALSHELLCOMMANDER_VERSION_FILE <> Some (File data)).
Proof.
  assert (H : In (EvReadFile DUALSHELLCOMMANDER_VERSION_FILE 4 (-1))
                 (log (network_update_thread sample_cfg env_no_descriptor 5 sample_world))).
  { vm_compute. right. right. left. reflexivity. }
  split; [exact H|].
  apply (C10_failed_read_aborts_silently sample_cfg env_no_descriptor 5 sample_world (-1)).
  - exact H.
  - lia.
Defined.

(** ** The extraction *)

Section Extraction.

Variable cfg : Config.
Variable env : Env.

Lemma makeHeadBin_log w :
  log (makeHeadBin cfg env w) = [EvMakeHeadBin (value (makeHeadBin cfg env w))].
Proof. reflexivity. Qed.

(** [makeHeadBin] and [promoteApp] act on the file system only. *)
Lemma makeHeadBin_frame w :
  let w' := world (makeHeadBin cfg env w) in
  dialog_step w' = dialog_step w /\ power_locks w' = power_locks w /\
  progress_bar w' = progress_bar w.
Proof.
  unfold makeHeadBin. cbn.
  destruct (build_head env (subtree PACKAGE_DIR (fs w))) as [res [hdr|]]; cbn; auto.
Qed.

Lemma promoteApp_log path w :
  log (promoteApp env path w) = [EvPromoteApp path (value (promoteApp env path w))].
Proof. reflexivity. Qed.

Lemma promoteApp_frame path w :
  let w' := world (promoteApp env path w) in
  dialog_step w' = dialog_step w /\ power_locks w' = power_locks w /\
  progress_bar w' = progress_bar w.
Proof.
  unfold promoteApp. cbn.
  destruct (promote env (subtree path (fs w))) as [res consumed]; cbn.
  destruct consumed, (0 <=? res); cbn; auto.
Qed.

Lemma installUpdater_run w :
  exists r1 r2,
    log (installUpdater cfg env w) =
      [EvRemovePath PACKAGE_DIR; EvIoMkdir PACKAGE_DIR mode_0777;
       EvIoMkdir "ux0:data/pkg/sce_sys" mode_0777;
       EvWriteFile "ux0:data/pkg/eboot.bin" (Z.of_nat (length (updater_eboot_bin cfg)));
       EvWriteFile "ux0:data/pkg/sce_sys/param.sfo"
                   (Z.of_nat (length (updater_param_bin cfg)));
       EvMakeHeadBin r1; EvPromoteApp PACKAGE_DIR r2] /\
    dialog_step (world (installUpdater cfg env w)) = dialog_step w /\
    power_locks (world (installUpdater cfg env w)) = power_locks w /\
    progress_bar (world (installUpdater cfg env w)) = progress_bar w.
Proof.
  unfold installUpdater. cbn. rewrite makeHeadBin_log, promoteApp_log. cbn.
  do 2 eexists. split; [reflexivity|].
  match goal with
  | |- context [promoteApp env PACKAGE_DIR ?w2] =>
      destruct (promoteApp_frame PACKAGE_DIR w2) as (-> & -> & ->)
  end.
  match goal with
  | |- context [makeHeadBin cfg env ?w1] =>
      destruct (makeHeadBin_frame w1) as (-> & -> & ->)
  end.
  cbn. auto.
Qed.

Lemma update_extract_prepare_run w :
  exists r1 r2,
    log (update_extract_prepare cfg env w) = prepare_log cfg r1 r2 /\
    dialog_step (world (update_extract_prepare cfg env w)) = dialog_step w /\
    power_locks (world (update_extract_prepare cfg env w)) = power_locks w + 1.
Proof.
  unfold update_extract_prepare. cbn.
  match goal with
  | |- context [installUpdater cfg env ?w1] =>
      destruct (installUpdater_run w1) as (r1 & r2 & -> & -> & -> & _)
  end.
  exists r1, r2. cbn. auto.
Qed.

Lemma makeHeadBin_frame_worker w :
  let w' := world (makeHeadBin cfg env w) in
  worker w' = worker w /\ progress_value w' = progress_value w.
Proof.
  unfold makeHeadBin. cbn.
  destruct (build_head env (subtree PACKAGE_DIR (fs w))) as [res [hdr|]]; cbn; auto.
Qed.

Lemma extract_exit_run thid w :
  log (extract_exit env thid w) = exit_log thid /\
  dialog_step (world (extract_exit env thid w)) = dialog_step w /\
  progress_bar (world (extract_exit env thid w)) =
    (if (0 <=? thid) && worker_final_push env
     then progress_bar (worker_push (progress_value w) w)
     else progress_bar w) /\
  power_locks (world (extract_exit env thid w)) = power_locks w - 1.
Proof.
  unfold extract_exit, exit_log.
  destruct (0 <=? thid); cbn; unfold worker_push;
    destruct (worker_final_push env), (worker w); cbn; repeat split; reflexivity.
Qed.

(** The four ways through lines 125-189.  On the way that completes, the
    progress bar ends at the 100 the thread set, or at the percentage the
    worker derived from the counter's final value. *)
Lemma update_extract_archive_run w :
  exists o,
    let r := update_extract_archive cfg env w in
    outcome_results env o /\
    log r = archive_log cfg env o /\
    dialog_step (world r) = final_step (dialog_step w) o /\
    power_locks (world r) = power_locks w - 1 /\
    (forall rh, o = Extracted rh ->
       progress_bar (world r) = 100 \/
       progress_bar (world r) =
         percentage (extract_value env)
                    (progress_max cfg (fst (fst (archive_info env)))
                                  (snd (fst (archive_info env))))).
Proof.
  unfold update_extract_archive. cbn.
  destruct (Z.ltb_spec (archive_open env) 0) as [Ho|Ho]; cbn.
  { match goal with
    | |- context [extract_exit env ?t ?w1] =>
        destruct (extract_exit_run t w1) as (-> & -> & _ & ->)
    end.
    exists OpenFailed. cbn. repeat split; auto. discriminate. }
  destruct (Z.leb_spec (extract_res env) 0) as [He|He]; cbn.
  { match goal with
    | |- context [extract_exit env ?t ?w1] =>
        destruct (extract_exit_run t w1) as (-> & -> & _ & ->)
    end.
    exists ExtractFailed. cbn. unfold worker_push.
    repeat split; auto; try discriminate;
      destruct (extract_seen env); cbn; try reflexivity;
      destruct (0 <=? start_thread env); reflexivity. }
  rewrite makeHeadBin_log.
  match goal with
  | |- context [makeHeadBin cfg env ?w1] =>
      destruct (makeHeadBin_frame w1) as (Hd & Hp & Hb);
      destruct (makeHeadBin_frame_worker w1) as (Hw & Hv);
      set (rh := value (makeHeadBin cfg env w1)) in *;
      set (wh := world (makeHeadBin cfg env w1)) in *
  end.
  assert (Hd' : dialog_step wh = dialog_step w).
  { rewrite Hd. unfold worker_push. cbn.
    destruct (extract_seen env); cbn; [|reflexivity].
    destruct (0 <=? start_thread env); reflexivity. }
  assert (Hp' : power_locks wh = power_locks w).
  { rewrite Hp. unfold worker_push. cbn.
    destruct (extract_seen env); cbn; [|reflexivity].
    destruct (0 <=? start_thread env); reflexivity. }
  assert (Hw' : worker wh =
                if 0 <=? start_thread env
                then Some (progress_max cfg (fst (fst (archive_info env)))
                                        (snd (fst (archive_info env))))
                else None).
  { rewrite Hw. unfold worker_push. cbn.
    destruct (extract_seen env); cbn; [|reflexivity].
    destruct (0 <=? start_thread env); reflexivity. }
  assert (Hv' : progress_value wh = extract_value env).
  { rewrite Hv. unfold worker_push. cbn.
    destruct (extract_seen env); cbn; [|reflexivity].
    destruct (0 <=? start_thread env); reflexivity. }
  clearbody rh wh. clear Hd Hp Hb Hw Hv.
  destruct (Z.ltb_spec rh 0) as [Hh|Hh]; cbn.
  - match goal with
    | |- context [extract_exit env ?t ?w1] =>
        destruct (extract_exit_run t w1) as (-> & -> & _ & ->)
    end.
    exists (ManifestFailed rh). cbn. repeat split; auto; try lia. discriminate.
  - match goal with
    | |- context [extract_exit env ?t ?w1] =>
        destruct (extract_exit_run t w1) as (-> & -> & Hbar & ->)
    end.
    exists (Extracted rh). cbn. repeat split; auto; try lia.
    intros rh' _. rewrite Hbar. unfold worker_push. cbn. rewrite Hw', Hv'.
    destruct (0 <=? start_thread env); cbn; [|auto].
    destruct (worker_final_push env); cbn; auto.
Qed.

(** The whole thread: the preparation, then one of the four ways. *)
Lemma update_extract_thread_run w :
  exists r1 r2 o,
    let r := update_extract_thread cfg env w in
    outcome_results env o /\
    log r = prepare_log cfg r1 r2 ++ archive_log cfg env o /\
    dialog_step (world r) = final_step (dialog_step w) o /\
    power_locks (world r) = power_locks w /\
    (forall rh, o = Extracted rh ->
       progress_bar (world r) = 100 \/
       progress_bar (world r) =
         percentage (extract_value env)
                    (progress_max cfg (fst (fst (archive_info env)))
                                  (snd (fst (archive_info env))))).
Proof.
  unfold update_extract_thread.
  destruct (update_extract_prepare_run w) as (r1 & r2 & Hlog & Hstep0 & Hlocks).
  destruct (update_extract_archive_run (world (update_extract_prepare cfg env w)))
    as (o & Hres & Hlog' & Hstep & Hlocks' & Hbar).
  exists r1, r2, o. cbv zeta in *.
  rewrite log_bind, world_bind, Hlog, Hlog', Hstep, Hstep0, Hlocks', Hlocks.
  repeat split; auto. lia.
Qed.

End Extraction.


(** On the sample inputs the promotion consumes the staging copy: nothing is
    staged after one call or after two. *)
Example installUpdater_twice_sample :
  map_to_list (staged (world ((exec installUpdater sample_cfg env_ok;
                               installUpdater sample_cfg env_ok) sample_world))) = [] /\
  map_to_list (staged (world (installUpdater sample_cfg env_ok sample_world))) = [].
Proof. split; vm_compute; reflexivity. Qed.

Lemma thread_log_ends (cfg : Config) (env : Env) (r1 r2 : Z) (o : Outcome) :
  prepare_log cfg r1 r2 ++ archive_log cfg env o =
  (prepare_log cfg r1 r2 ++ open_log env ++ outcome_log cfg env o) ++
  exit_log (thid_at_exit env o).
Proof. unfold archive_log. by rewrite <- !app_assoc. Qed.

(** C1: in every run of [update_extract_thread], whichever way it takes, the
    first call acquires the power lock, the lock is acquired once and
    released once, the release and the thread's exit are the last two calls,
    and when the reporting worker was started (its id is not negative) the
    wait for its end comes right before the release; the lock is held as
    often afterwards as before. *)
Theorem C1_power_lock_released_once_after_join (cfg : Config) (env : Env) (w : World) :
  let r := update_extract_thread cfg env w in
  hd_error (log r) = Some EvPowerLock /\
  length (List.filter is_power_lock (log r)) = 1%nat /\
  length (List.filter is_power_unlock (log r)) = 1%nat /\
  (exists before, log r = before ++ [EvPowerUnlock; EvExitDeleteThread 0]) /\
  (forall max show thid,
     In (EvCreateStartUpdateThread max show thid) (log r) -> 0 <= thid ->
     exists before,
       log r = before ++ [EvWaitThreadEnd thid; EvPowerUnlock; EvExitDeleteThread 0] /\
       In (EvCreateStartUpdateThread max show thid) before) /\
  power_locks (world r) = power_locks w.
Proof.
  destruct (update_extract_thread_run cfg env w)
    as (r1 & r2 & o & Hres & Hlog & _ & Hlocks & _).
  cbv zeta in *. rewrite Hlog, Hlocks. clear Hlog Hlocks.
  split; [reflexivity|].
  split; [destruct o; unfold_logs; destruct (0 <=? start_thread env); reflexivity|].
  split; [destruct o; unfold_logs; destruct (0 <=? start_thread env); reflexivity|].
  split.
  { rewrite thread_log_ends. unfold exit_log. rewrite app_assoc. eexists. reflexivity. }
  split; [|reflexivity].
  intros max show thid H Hthid.
  exists (prepare_log cfg r1 r2 ++ open_log env ++ outcome_log cfg env o).
  assert (Ho : thid_at_exit env o = thid /\
               In (EvCreateStartUpdateThread max show thid) (outcome_log cfg env o)).
  { destruct o; unfold_logs; destruct (0 <=? start_thread env); cbn in H; in_log H;
      cbn; auto. }
  destruct Ho as [Ho Hin]. split.
  - rewrite thread_log_ends, Ho. unfold exit_log.
    replace (0 <=? thid) with true by lia. reflexivity.
  - rewrite !in_app_iff. auto.
Qed.

(** The calls of a run in which the extraction is cancelled. *)
Example update_extract_thread_cancelled :
  log (update_extract_thread sample_cfg env_extract_fails sample_world) =
  prepare_log sample_cfg 0 0 ++
  [EvArchiveClearPassword; EvArchiveOpen DUALSHELLCOMMANDER_UPDATE_FILE 0;
   EvGetArchivePathInfo (DUALSHELLCOMMANDER_UPDATE_FILE +:+ "/") 1000 2 5;
   EvCreateStartUpdateThread 1200 1 7;
   EvExtractArchivePath (DUALSHELLCOMMANDER_UPDATE_FILE +:+ "/") (PACKAGE_DIR +:+ "/") 1200 0;
   EvCloseWaitDialog; EvSetDialogStep DIALOG_STEP_CANCELED; EvErrorDialog 0;
   EvWaitThreadEnd 7; EvPowerUnlock; EvExitDeleteThread 0].
Proof. vm_compute. reflexivity. Qed.




(** The archive-open failure on the sample inputs. *)
Example update_extract_thread_open_fails :
  let r := update_extract_thread sample_cfg env_open_fails sample_world in
  archive_open_failure (log r) (-5) /\
  log r = prepare_log sample_cfg 0 0 ++
          [EvArchiveClearPassword; EvArchiveOpen DUALSHELLCOMMANDER_UPDATE_FILE (-5);
           EvCloseWaitDialog; EvErrorDialog (-5); EvPowerUnlock; EvExitDeleteThread 0].
Proof.
  split; [split; [vm_compute; repeat (first [left; reflexivity | right]) | lia]|].
  vm_compute; reflexivity.
Qed.



(** ** The progress maximum *)

Lemma progress_max_exact (cfg : Config) (size folders : Z) :
  0 <= size -> 0 <= folders -> 0 <= DIRECTORY_SIZE cfg ->
  folders * DIRECTORY_SIZE cfg < 2 ^ 32 ->
  size + folders * DIRECTORY_SIZE cfg < 2 ^ 64 ->
  progress_max cfg size folders = size + folders * DIRECTORY_SIZE cfg.
Proof.
  intros Hs Hf Hd H32 H64. unfold progress_max, wrap64, wrap32.
  assert (0 <= folders * DIRECTORY_SIZE cfg) by nia.
  rewrite (Z.mod_small (folders * DIRECTORY_SIZE cfg)) by lia.
  apply Z.mod_small. lia.
Qed.

(** Size 1000, 2 directories, a directory weight of 100: the maximum is 1200. *)
Example progress_max_1200 : progress_max sample_cfg 1000 2 = 1200.
Proof. reflexivity. Qed.

Lemma percentage_full (max : Z) : percentage max max = 100.
Proof. unfold percentage. by rewrite Z.leb_refl. Qed.

(** C4 (counterexample): for an archive that reports a size of
    [2^64 - 1] and one directory, with a directory weight of 100, the
    maximum the thread passes on is 99, not [2^64 - 1 + 1 * 100]; for an
    archive of 1000 bytes and 42949673 directories it is 1004, not
    [1000 + 42949673 * 100]. *)
Lemma C4_progress_max_wraps :
  (let r := update_extract_thread sample_cfg env_huge sample_world in
   let size := 2 ^ 64 - 1 in
   let folders := 1 in
   archive_info env_huge = (size, folders, 5) /\
   In (EvCreateStartUpdateThread 99 1 7) (log r) /\
   ~ In (EvCreateStartUpdateThread (size + folders * DIRECTORY_SIZE sample_cfg) 1 7) (log r) /\
   progress_max sample_cfg size folders <> size + folders * DIRECTORY_SIZE sample_cfg) /\
  (let r := update_extract_thread sample_cfg env_many_folders sample_world in
   let size := 1000 in
   let folders := 42949673 in
   archive_info env_many_folders = (size, folders, 5) /\
   In (EvCreateStartUpdateThread 1004 1 7) (log r) /\
   ~ In (EvCreateStartUpdateThread (size + folders * DIRECTORY_SIZE sample_cfg) 1 7) (log r) /\
   progress_max sample_cfg size folders <> size + folders * DIRECTORY_SIZE sample_cfg).
Proof.
  cbv zeta. split.
  - split; [reflexivity|]. split; [|split].
    + vm_compute. repeat (first [left; reflexivity | right]).
    + vm_compute. intros H. in_log H.
    + vm_compute. discriminate.
  - split; [reflexivity|]. split; [|split].
    + vm_compute. repeat (first [left; reflexivity | right]).
    + vm_compute. intros H. in_log H.
    + vm_compute. discriminate.
Qed.

(** C4 (amended): when the directory count times the directory weight is
    below [2^32] and the sum with the size is below [2^64], the maximum the
    thread passes to the reporting worker and to the extraction is
    [size + folders * DIRECTORY_SIZE]; and on a successful run in which the
    counter reaches exactly that maximum, the thread sets the progress bar to
    100, the progress bar shows 100 at the end - whether or not the worker
    pushed after that - and Dialog Step ends as [EXTRACTED]. *)
Theorem C4_progress_max_and_completion
  (cfg : Config) (env : Env) (w : World) (size folders files : Z) :
  archive_info env = (size, folders, files) ->
  0 <= archive_open env ->
  0 <= size -> 0 <= folders -> 0 <= DIRECTORY_SIZE cfg ->
  folders * DIRECTORY_SIZE cfg < 2 ^ 32 ->
  size + folders * DIRECTORY_SIZE cfg < 2 ^ 64 ->
  let r := update_extract_thread cfg env w in
  let max := size + folders * DIRECTORY_SIZE cfg in
  In (EvCreateStartUpdateThread max 1 (start_thread env)) (log r) /\
  In (EvExtractArchivePath (DUALSHELLCOMMANDER_UPDATE_FILE +:+ "/") (PACKAGE_DIR +:+ "/")
                           max (extract_res env)) (log r) /\
  (0 < extract_res env ->
   (forall rh, ~ manifest_failure (log r) rh) ->
   extract_value env = max ->
   In (EvProgressBarSetValue 100) (log r) /\
   progress_bar (world r) = 100 /\
   dialog_step (world r) = DIALOG_STEP_EXTRACTED).
Proof.
  intros Hinfo Hopen Hs Hf Hd H32 H64.
  destruct (update_extract_thread_run cfg env w)
    as (r1 & r2 & o & Hres & Hlog & Hstep & _ & Hbar).
  cbv zeta in *. rewrite Hlog, Hstep. clear Hlog Hstep.
  pose proof (progress_max_exact cfg size folders Hs Hf Hd H32 H64) as Hmax.
  rewrite Hinfo in Hbar. cbn [fst snd] in Hbar. rewrite Hmax in Hbar.
  destruct o; cbn [outcome_results final_step] in *; [lia| | |].
  - unfold_logs. rewrite Hinfo. cbn [fst snd]. rewrite Hmax.
    split; [find_in|]. split; [find_in|]. lia.
  - unfold_logs. rewrite Hinfo. cbn [fst snd]. rewrite Hmax.
    split; [find_in|]. split; [find_in|].
    intros _ Hno. exfalso. apply (Hno rh). unfold manifest_failure.
    split; [|lia]. destruct (0 <=? start_thread env); find_follows.
  - unfold_logs. rewrite Hinfo. cbn [fst snd]. rewrite Hmax.
    split; [find_in|]. split; [find_in|].
    intros _ _ Hvalue. split; [find_in|]. split; [|reflexivity].
    destruct (Hbar rh eq_refl) as [E|E]; [exact E|].
    rewrite E, Hvalue. apply percentage_full.
Qed.

Lemma C4_progress_max_witness :
  let r := update_extract_thread sample_cfg env_ok sample_world in
  let max := 1000 + 2 * DIRECTORY_SIZE sample_cfg in
  max = 1200 /\
  In (EvCreateStartUpdateThread max 1 (start_thread env_ok)) (log r) /\
  In (EvExtractArchivePath (DUALSHELLCOMMANDER_UPDATE_FILE +:+ "/") (PACKAGE_DIR +:+ "/")
                           max (extract_res env_ok)) (log r) /\
  (0 < extract_res env_ok ->
   (forall rh, ~ manifest_failure (log r) rh) ->
   extract_value env_ok = max ->
   In (EvProgressBarSetValue 100) (log r) /\
   progress_bar (world r) = 100 /\
   dialog_step (world r) = DIALOG_STEP_EXTRACTED).
Proof.
  split; [reflexivity|].
  apply (C4_progress_max_and_completion sample_cfg env_ok sample_world 1000 2 5).
  - reflexivity.
  - simpl. lia.
  - lia.
  - lia.
  - simpl. lia.
  - simpl. lia.
  - simpl. lia.
Defined.

(** On the sample archive the counter reaches the maximum, 1200: the worker
    pushes 41 at a counter of 500 during the extraction, the thread sets 100,
    the worker's push before it ends is 100 again, and Dialog Step ends as
    [EXTRACTED]. *)
Example update_extract_thread_completes :
  let r := update_extract_thread sample_cfg env_ok sample_world in
  percentage 500 1200 = 41 /\
  progress_value (world r) = 1200 /\
  progress_bar (world r) = 100 /\
  dialog_step (world r) = DIALOG_STEP_EXTRACTED /\
  worker (world r) = None.
Proof. repeat split; vm_compute; reflexivity. Qed.

(** When the extraction succeeds with the counter short of the maximum, at
    600 of 1200, a push of the worker after the thread's 100 leaves the
    progress bar at 50. *)
Example update_extract_thread_short_counter :
  let env := mkEnv (0, 4) (4, None) (fun _ => None) (1, true)
                   0 (1000, 2, 5) 7 1 600 id (fun _ => (0, None)) (fun _ => (0, true))
                   None true in
  let r := update_extract_thread sample_cfg env sample_world in
  dialog_step (world r) = DIALOG_STEP_EXTRACTED /\ progress_bar (world r) = 50.
Proof. split; vm_compute; reflexivity. Qed.

(** When the extraction is cancelled the progress bar shows what the worker
    last pushed: with the counter stopped at 600 of 1200 it is 50. *)
Example update_extract_thread_cancelled_bar :
  let env := mkEnv (0, 4) (4, None) (fun _ => None) (1, true)
                   0 (1000, 2, 5) 7 0 600 id (fun _ => (0, None)) (fun _ => (0, true))
                   (Some 300) true in
  progress_bar (world (update_extract_thread sample_cfg env sample_world)) = 50.
Proof. vm_compute. reflexivity. Qed.

(** * Further properties *)

(** ** The wait for the response *)

Lemma wait_for_response_left (env : Env) (fuel k : nat) (w : World) :
  dialog_step w <> DIALOG_STEP_UPDATE_QUESTION ->
  wait_for_response env fuel k w = mkResult true w [].
Proof.
  intros H. destruct fuel; cbn [wait_for_response]; unfold bind, getDialogStep; cbn;
    destruct (decide (dialog_step w = DIALOG_STEP_UPDATE_QUESTION)); try contradiction;
    reflexivity.
Qed.

Lemma wait_for_response_answered (env : Env) (s : DialogStep) :
  s <> DIALOG_STEP_UPDATE_QUESTION ->
  forall n fuel k w,
    dialog_step w = DIALOG_STEP_UPDATE_QUESTION ->
    (forall j, (k <= j < k + n)%nat -> ui_silent env j) ->
    ui_write env (k + n)%nat = Some s ->
    (n < fuel)%nat ->
    wait_for_response env fuel k w = mkResult true (set_dialog_step s w) (sleeps (S n)).
Proof.
  intros Hs. induction n as [|n IH]; intros fuel k w Hstep Hsilent Hans Hfuel;
    (destruct fuel as [|fuel]; [lia|]); cbn [wait_for_response];
    unfold bind at 1, getDialogStep; cbn [value world log];
    (destruct (decide (dialog_step w = DIALOG_STEP_UPDATE_QUESTION)); [|contradiction]);
    unfold bind, sceKernelDelayThread, ui_thread, call; cbn [value world log app id].
  - rewrite Nat.add_0_r in Hans. rewrite Hans.
    rewrite wait_for_response_left by (cbn; exact Hs). reflexivity.
  - assert (Hk : ui_silent env k) by (apply Hsilent; lia).
    assert (Hrest : forall j, (S k <= j < S k + n)%nat -> ui_silent env j)
      by (intros j Hj; apply Hsilent; lia).
    assert (Hans' : ui_write env (S k + n)%nat = Some s)
      by (rewrite <- Hans; f_equal; lia).
    destruct Hk as [Hk|Hk]; rewrite Hk.
    + rewrite (IH fuel (S k) w Hstep Hrest Hans') by lia. reflexivity.
    + rewrite (IH fuel (S k) (set_dialog_step DIALOG_STEP_UPDATE_QUESTION w)
                 eq_refl Hrest Hans') by lia.
      reflexivity.
Qed.

Lemma wait_for_response_unanswered (env : Env) :
  (forall j, ui_silent env j) ->
  forall fuel k w,
    dialog_step w = DIALOG_STEP_UPDATE_QUESTION ->
    value (wait_for_response env fuel k w) = false /\
    log (wait_for_response env fuel k w) = sleeps fuel /\
    dialog_step (world (wait_for_response env fuel k w)) = DIALOG_STEP_UPDATE_QUESTION.
Proof.
  intros Hsilent. induction fuel as [|fuel IH]; intros k w Hstep; cbn;
    (destruct (decide (dialog_step w = DIALOG_STEP_UPDATE_QUESTION)); [|contradiction]); cbn.
  - auto.
  - destruct (Hsilent k) as [Hk|Hk]; rewrite Hk.
    + destruct (IH (S k) w Hstep) as (-> & -> & ->). auto.
    + destruct (IH (S k) (set_dialog_step DIALOG_STEP_UPDATE_QUESTION w) eq_refl)
        as (-> & -> & ->). auto.
Qed.

(** When the update is offered, the thread runs lines 43-67 and then awaits
    the response. *)
Lemma network_update_thread_offer (cfg : Config) (env : Env) (fuel : nat) (w : World)
      (res0 res1 remote : Z) :
  update_offered cfg env w res0 res1 remote ->
  let r := network_update_thread cfg env fuel w in
  let r' := await_response env fuel (world_at_prompt w remote) in
  value r = value r' /\ world r = world r' /\
  log r = prompt_log res0 res1 remote ++ log r'.
Proof.
  intros (Hr & Hv & Hsize & Hres0 & Hfile & Hres1 & Hstep & Hgt).
  unfold network_update_thread, read_version, ReadFile, await_response. cbn.
  rewrite Hsize. cbn.
  replace (0 <=? res0) with true by lia. cbn.
  rewrite Hfile. cbn.
  replace (res1 <=? 0) with false by lia. cbn.
  rewrite fs_read_write. cbn [fst snd].
  rewrite store_u32, le_decode_le_u32 by assumption.
  rewrite Hstep, decide_True by reflexivity. cbn.
  unfold wrap32. rewrite Z.mod_small by (unfold Version.is_u32 in Hv; lia).
  replace (DUALSHELLCOMMANDER_VERSION cfg <? remote) with true by lia. cbn.
  repeat split; reflexivity.
Qed.

(** X4: when the update is offered and the user declines during the
    [n]-th sleep (the UI thread stores [NONE]), the thread sleeps [n + 1]
    times, then exits: it returns 0, Dialog Step is [NONE], and the package
    is not downloaded. *)
Theorem X4_declined_update_exits
  (cfg : Config) (env : Env) (fuel n : nat) (w : World) (res0 res1 remote : Z) :
  update_offered cfg env w res0 res1 remote ->
  (forall j, (j < n)%nat -> ui_silent env j) ->
  ui_write env n = Some DIALOG_STEP_NONE ->
  (n < fuel)%nat ->
  let r := network_update_thread cfg env fuel w in
  value r = Some 0 /\
  dialog_step (world r) = DIALOG_STEP_NONE /\
  log r = prompt_log res0 res1 remote ++ sleeps (S n) ++ [EvExitDeleteThread 0].
Proof.
  intros Hoffer Hsilent Hans Hfuel.
  destruct (network_update_thread_offer cfg env fuel w res0 res1 remote Hoffer)
    as (Hv & Hw & Hl).
  cbv zeta in *. rewrite Hv, Hw, Hl. clear Hv Hw Hl.
  unfold await_response.
  rewrite value_bind, world_bind, log_bind.
  rewrite (wait_for_response_answered env DIALOG_STEP_NONE ltac:(discriminate)
             n fuel 0%nat (world_at_prompt w remote) eq_refl)
    by (auto; intros j Hj; apply Hsilent; lia).
  cbn. repeat split; reflexivity.
Qed.

Lemma X4_declined_update_witness :
  let r := network_update_thread sample_cfg env_ok 5 sample_world in
  value r = Some 0 /\
  dialog_step (world r) = DIALOG_STEP_NONE /\
  log r = prompt_log 0 4 0x01200000 ++ sleeps 3 ++ [EvExitDeleteThread 0].
Proof.
  apply (X4_declined_update_exits sample_cfg env_ok 5 2 sample_world 0 4 0x01200000).
  - unfold update_offered, Version.is_u32. simpl. repeat split; lia || reflexivity.
  - intros j Hj. left. destruct j as [|[|j]]; [reflexivity | reflexivity | lia].
  - reflexivity.
  - lia.
Defined.

(** X5: when the update is offered and the user accepts during the [n]-th
    sleep (the UI thread stores a step other than [NONE]), the thread's last
    call is [downloadFileProcess] for the package, to the update file, with
    [DOWNLOADED] as the step to signal; the thread returns that call's result
    and does not call [sceKernelExitDeleteThread]. *)
Theorem X5_accepted_update_downloads
  (cfg : Config) (env : Env) (fuel n : nat) (w : World) (res0 res1 remote : Z)
  (s : DialogStep) :
  update_offered cfg env w res0 res1 remote ->
  (forall j, (j < n)%nat -> ui_silent env j) ->
  ui_write env n = Some s ->
  s <> DIALOG_STEP_NONE -> s <> DIALOG_STEP_UPDATE_QUESTION ->
  (n < fuel)%nat ->
  let r := network_update_thread cfg env fuel w in
  value r = Some (fst (download_process env)) /\
  log r = prompt_log res0 res1 remote ++ sleeps (S n) ++
          [EvDownloadFileProcess (BASE_ADDRESS +:+ "/DualShellCommander.vpk")
                                 DUALSHELLCOMMANDER_UPDATE_FILE DIALOG_STEP_DOWNLOADED
                                 (fst (download_process env))].
Proof.
  intros Hoffer Hsilent Hans Hnone Hquestion Hfuel.
  destruct (network_update_thread_offer cfg env fuel w res0 res1 remote Hoffer)
    as (Hv & Hw & Hl).
  cbv zeta in *. rewrite Hv, Hl. clear Hv Hw Hl.
  unfold await_response.
  rewrite value_bind, log_bind.
  rewrite (wait_for_response_answered env s Hquestion
             n fuel 0%nat (world_at_prompt w remote) eq_refl)
    by (auto; intros j Hj; apply Hsilent; lia).
  cbn. destruct (decide (s = DIALOG_STEP_NONE)) as [E|_]; [contradiction|]. cbn.
  split; reflexivity.
Qed.

Lemma X5_accepted_update_witness :
  let r := network_update_thread sample_cfg env_accepts 5 sample_world in
  value r = Some (fst (download_process env_accepts)) /\
  log r = prompt_log 0 4 0x01200000 ++ sleeps 2 ++
          [EvDownloadFileProcess (BASE_ADDRESS +:+ "/DualShellCommander.vpk")
                                 DUALSHELLCOMMANDER_UPDATE_FILE DIALOG_STEP_DOWNLOADED
                                 (fst (download_process env_accepts))].
Proof.
  apply (X5_accepted_update_downloads sample_cfg env_accepts 5 1 sample_world
           0 4 0x01200000 (DIALOG_STEP_OTHER 0)).
  - unfold update_offered, Version.is_u32. simpl. repeat split; lia || reflexivity.
  - intros j Hj. left. destruct j as [|j]; [reflexivity | lia].
  - reflexivity.
  - discriminate.
  - discriminate.
  - lia.
Defined.

(** X6: the wait has no timeout: when the update is offered and the UI
    thread never stores an answer, then after any number of sleeps the thread
    is still waiting, Dialog Step is [UPDATE_QUESTION], and all it has done
    since the prompt is sleep. *)
Theorem X6_wait_has_no_timeout
  (cfg : Config) (env : Env) (fuel : nat) (w : World) (res0 res1 remote : Z) :
  update_offered cfg env w res0 res1 remote ->
  (forall j, ui_silent env j) ->
  let r := network_update_thread cfg env fuel w in
  value r = None /\
  dialog_step (world r) = DIALOG_STEP_UPDATE_QUESTION /\
  log r = prompt_log res0 res1 remote ++ sleeps fuel.
Proof.
  intros Hoffer Hsilent.
  destruct (network_update_thread_offer cfg env fuel w res0 res1 remote Hoffer)
    as (Hv & Hw & Hl).
  cbv zeta in *. rewrite Hv, Hw, Hl. clear Hv Hw Hl.
  unfold await_response.
  rewrite value_bind, world_bind, log_bind.
  destruct (wait_for_response_unanswered env Hsilent fuel 0%nat
              (world_at_prompt w remote) eq_refl) as (Hval & Hlog & Hstep).
  rewrite Hval, Hlog. cbn. rewrite Hstep, app_nil_r. auto.
Qed.

Lemma X6_wait_has_no_timeout_witness :
  let r := network_update_thread sample_cfg env_silent 40 sample_world in
  value r = None /\
  dialog_step (world r) = DIALOG_STEP_UPDATE_QUESTION /\
  log r = prompt_log 0 4 0x01200000 ++ sleeps 40.
Proof.
  apply (X6_wait_has_no_timeout sample_cfg env_silent 40 sample_world 0 4 0x01200000).
  - unfold update_offered, Version.is_u32. simpl. repeat split; lia || reflexivity.
  - intros j. left. reflexivity.
Defined.

(** ** The ways out of the update check before the prompt *)

(** X1: when the size query fails or reports a size other than 4, the thread
    exits at once: nothing is downloaded, read or removed, and the world is
    what it was. *)
Theorem X1_size_check_failure_exits
  (cfg : Config) (env : Env) (fuel : nat) (w : World) :
  fst (download_size env) < 0 \/ snd (download_size env) <> 4 ->
  let r := network_update_thread cfg env fuel w in
  value r = Some 0 /\
  world r = w /\
  log r = [EvGetDownloadFileSize (BASE_ADDRESS +:+ VERSION_URL)
                                 (fst (download_size env)) (snd (download_size env));
           EvExitDeleteThread 0].
Proof.
  intros H. unfold network_update_thread. cbn.
  replace ((0 <=? (download_size env).1) && ((download_size env).2 =? 4)) with false.
  - cbn. repeat split; reflexivity.
  - symmetry. apply andb_false_iff. destruct H as [H|H]; [left | right]; lia.
Qed.

Lemma X1_size_check_failure_witness :
  let env := mkEnv (0, 5) (4, Some (le_u32 0x01200000)) (fun _ => None) (1, true)
                   0 (1000, 2, 5) 7 1 1200 id (fun _ => (0, None)) (fun _ => (0, true))
                   None false in
  let r := network_update_thread sample_cfg env 5 sample_world in
  value r = Some 0 /\
  world r = sample_world /\
  log r = [EvGetDownloadFileSize (BASE_ADDRESS +:+ VERSION_URL) 0 5; EvExitDeleteThread 0].
Proof.
  cbv zeta.
  apply (X1_size_check_failure_exits sample_cfg
           (mkEnv (0, 5) (4, Some (le_u32 0x01200000)) (fun _ => None) (1, true)
                  0 (1000, 2, 5) 7 1 1200 id (fun _ => (0, None)) (fun _ => (0, true))
                   None false)
           5 sample_world).
  right. simpl. lia.
Defined.

(** X2: when the download returns a non-positive result, the thread exits
    right after it: the descriptor is neither read nor removed, so whatever
    the download left at the descriptor path stays there, and Dialog Step is
    what it was. *)
Theorem X2_download_failure_exits
  (cfg : Config) (env : Env) (fuel : nat) (w : World) (res0 : Z) :
  download_size env = (res0, 4) -> 0 <= res0 ->
  fst (download_file env) <= 0 ->
  let r := network_update_thread cfg env fuel w in
  value r = Some 0 /\
  dialog_step (world r) = dialog_step w /\
  log r = [EvGetDownloadFileSize (BASE_ADDRESS +:+ VERSION_URL) res0 4;
           EvDownloadFile (BASE_ADDRESS +:+ VERSION_URL) DUALSHELLCOMMANDER_VERSION_FILE
                          (fst (download_file env));
           EvExitDeleteThread 0] /\
  fs (world r) = match snd (download_file env) with
                 | Some data => fs_write DUALSHELLCOMMANDER_VERSION_FILE data (fs w)
                 | None => fs w
                 end.
Proof.
  intros Hsize Hres0 Hres. unfold network_update_thread. cbn.
  rewrite Hsize. cbn.
  replace (0 <=? res0) with true by lia. cbn.
  replace ((download_file env).1 <=? 0) with true by lia. cbn.
  repeat split; try reflexivity.
  destruct (snd (download_file env)); reflexivity.
Qed.

Lemma X2_download_failure_witness :
  let env := mkEnv (0, 4) (-1, Some [x12%byte]) (fun _ => None) (1, true)
                   0 (1000, 2, 5) 7 1 1200 id (fun _ => (0, None)) (fun _ => (0, true))
                   None false in
  let r := network_update_thread sample_cfg env 5 sample_world in
  value r = Some 0 /\
  dialog_step (world r) = dialog_step sample_world /\
  log r = [EvGetDownloadFileSize (BASE_ADDRESS +:+ VERSION_URL) 0 4;
           EvDownloadFile (BASE_ADDRESS +:+ VERSION_URL) DUALSHELLCOMMANDER_VERSION_FILE
                          (fst (download_file env));
           EvExitDeleteThread 0] /\
  fs (world r) = match snd (download_file env) with
                 | Some data => fs_write DUALSHELLCOMMANDER_VERSION_FILE data (fs sample_world)
                 | None => fs sample_world
                 end.
Proof.
  cbv zeta.
  apply (X2_download_failure_exits sample_cfg
           (mkEnv (0, 4) (-1, Some [x12%byte]) (fun _ => None) (1, true)
                  0 (1000, 2, 5) 7 1 1200 id (fun _ => (0, None)) (fun _ => (0, true))
                   None false)
           5 sample_world 0).
  - reflexivity.
  - lia.
  - simpl. lia.
Defined.

Lemma wait_for_response_fs (env : Env) (fuel : nat) : forall k w,
  fs (world (wait_for_response env fuel k w)) = fs w.
Proof.
  induction fuel as [|fuel IH]; intros k w; cbn.
  - destruct (decide (dialog_step w = DIALOG_STEP_UPDATE_QUESTION)); reflexivity.
  - destruct (decide (dialog_step w = DIALOG_STEP_UPDATE_QUESTION)); cbn; [|reflexivity].
    rewrite IH. destruct (ui_write env k); reflexivity.
Qed.

(** X3: once the download has succeeded, the descriptor file is removed on
    every way through the rest of the thread - whatever was read, whether or
    not a dialog is running, whether or not an update is offered, and
    whatever the user answers. *)
Theorem X3_descriptor_always_removed
  (cfg : Config) (env : Env) (fuel : nat) (w : World) (res0 : Z) (data : list byte) :
  download_size env = (res0, 4) -> 0 <= res0 ->
  0 < fst (download_file env) ->
  let r := network_update_thread cfg env fuel w in
  In (EvIoRemove DUALSHELLCOMMANDER_VERSION_FILE) (log r) /\
  fs (world r) !! DUALSHELLCOMMANDER_VERSION_FILE <> Some (File data).
Proof.
  intros Hsize Hres0 Hres. unfold network_update_thread. cbn.
  rewrite Hsize. cbn.
  replace (0 <=? res0) with true by lia. cbn.
  replace ((download_file env).1 <=? 0) with false by lia. cbn.
  split; [auto|].
  destruct (decide (dialog_step w = DIALOG_STEP_NONE)); cbn;
    [|apply fs_remove_no_file].
  match goal with
  | |- context [wrap32 (DUALSHELLCOMMANDER_VERSION cfg) <? ?version] =>
      destruct (wrap32 (DUALSHELLCOMMANDER_VERSION cfg) <? version)
  end; cbn; [|apply fs_remove_no_file].
  match goal with
  | |- context [wait_for_response env fuel 0%nat ?w1] =>
      pose proof (wait_for_response_fs env fuel 0%nat w1) as Hfs;
      destruct (wait_for_response env fuel 0%nat w1) as [a w2 l2]
  end.
  cbn in Hfs |- *.
  destruct a; cbn; [|rewrite Hfs; apply fs_remove_no_file].
  destruct (decide (dialog_step w2 = DIALOG_STEP_NONE)); cbn;
    [rewrite Hfs; apply fs_remove_no_file|].
  destruct (snd (download_process env)); cbn; rewrite Hfs; apply fs_remove_no_file.
Qed.

Lemma X3_descriptor_always_removed_witness :
  let r := network_update_thread sample_cfg env_accepts 5 sample_world in
  In (EvIoRemove DUALSHELLCOMMANDER_VERSION_FILE) (log r) /\
  fs (world r) !! DUALSHELLCOMMANDER_VERSION_FILE <> Some (File (le_u32 0x01200000)).
Proof.
  apply (X3_descriptor_always_removed sample_cfg env_accepts 5 sample_world 0).
  - reflexivity.
  - lia.
  - simpl. lia.
Defined.

(** ** Versions *)

Lemma major_range (v : Z) : 0 <= Version.major v < 256.
Proof.
  unfold Version.major. change 0xFF with (Z.ones 8). rewrite Z.land_ones by lia.
  apply Z.mod_pos_bound. lia.
Qed.

Lemma minor_range (v : Z) : 0 <= Version.minor v < 256.
Proof.
  unfold Version.minor. change 0xFF with (Z.ones 8). rewrite Z.land_ones by lia.
  apply Z.mod_pos_bound. lia.
Qed.

Lemma major_div (v : Z) : Version.is_u32 v -> Version.major v = v / 2 ^ 24.
Proof.
  intros [H0 H1]. unfold Version.major. change 0xFF with (Z.ones 8).
  rewrite Z.land_ones, Z.shiftr_div_pow2 by lia.
  apply Z.mod_small. split; [apply Z.div_pos; lia|].
  apply Z.div_lt_upper_bound; lia.
Qed.

Lemma minor_div (v : Z) : Version.minor v = (v / 2 ^ 16) mod 256.
Proof.
  unfold Version.minor. change 0xFF with (Z.ones 8).
  rewrite Z.land_ones, Z.shiftr_div_pow2 by lia. reflexivity.
Qed.

(** X7: whatever the version, what [sprintf] writes is 4 or 5 characters
    long, so with its terminator it fits the 8-byte buffer and index 3 lies
    within it; the string the dialog gets is 3 to 5 characters long. *)
Theorem X7_version_string_fits_buffer (version : Z) :
  let buf := Version.sprintf_version (Version.major version) (Version.minor version) in
  (4 <= String.length buf <= 5)%nat /\
  (String.length buf + 1 <= 8)%nat /\
  (exists c, String.get 3 buf = Some c) /\
  (3 <= String.length (Version.version_string version) <= String.length buf)%nat.
Proof.
  unfold Version.version_string, Version.sprintf_version, Version.fmt_X, Version.fmt_02X.
  generalize (Version.hex_digit (Version.major version))
             (Version.hex_digit (Version.major version / 16))
             (Version.hex_digit (Version.major version mod 16))
             (Version.hex_digit (Version.minor version / 16))
             (Version.hex_digit (Version.minor version mod 16)).
  intros a b c d e.
  destruct (Version.major version <? 16); cbv [String.append]; cbn.
  - repeat split; try lia; [eauto|..];
      destruct e as [[] [] [] [] [] [] [] []]; cbn; lia.
  - repeat split; try lia; [eauto|..];
      destruct d as [[] [] [] [] [] [] [] []]; cbn; lia.
Qed.

(** X8: for a version below 16.0, whose major [%X] prints as one digit, the
    string is the major digit, a dot, and the two hexadecimal digits of the
    minor of which a trailing zero is dropped. *)
Theorem X8_version_string_below_16 (v : Z) :
  Version.is_u32 v -> v < 0x10000000 ->
  Version.version_string v = Version.spec_version_string v.
Proof.
  intros Hv Hlt. apply version_string_one_digit_major.
  - rewrite major_div by assumption. destruct Hv as [H0 H1].
    split; [apply Z.div_pos; lia|]. apply Z.div_lt_upper_bound; lia.
  - apply minor_range.
Qed.

Lemma X8_version_string_below_16_witness :
  Version.version_string 0x0F300000 = Version.spec_version_string 0x0F300000.
Proof.
  apply (X8_version_string_below_16 0x0F300000).
  - unfold Version.is_u32. lia.
  - lia.
Defined.

(** X9: the numeric comparison of line 56 agrees with the order on (major,
    minor): a version with a greater major, or the same major and a greater
    minor, is the greater 32-bit value. *)
Theorem X9_numeric_order_refines_major_minor (v1 v2 : Z) :
  Version.is_u32 v1 -> Version.is_u32 v2 ->
  Version.major v2 < Version.major v1 \/
  (Version.major v2 = Version.major v1 /\ Version.minor v2 < Version.minor v1) ->
  v2 < v1.
Proof.
  intros H1 H2. rewrite !major_div by assumption. rewrite !minor_div.
  destruct H1 as [H1 H1'], H2 as [H2 H2'].
  change (2 ^ 24) with (2 ^ 16 * 256).
  rewrite <- !Z.div_div by lia.
  change (2 ^ 16) with 65536.
  pose proof (Z.div_mod v1 65536 ltac:(lia)).
  pose proof (Z.div_mod v2 65536 ltac:(lia)).
  pose proof (Z.mod_pos_bound v1 65536 ltac:(lia)).
  pose proof (Z.mod_pos_bound v2 65536 ltac:(lia)).
  pose proof (Z.div_mod (v1 / 65536) 256 ltac:(lia)).
  pose proof (Z.div_mod (v2 / 65536) 256 ltac:(lia)).
  pose proof (Z.mod_pos_bound (v1 / 65536) 256 ltac:(lia)).
  pose proof (Z.mod_pos_bound (v2 / 65536) 256 ltac:(lia)).
  intros [Hm|[Hm Hm']]; lia.
Qed.

Lemma X9_numeric_order_witness : 0x01050000 < 0x01200000.
Proof.
  apply (X9_numeric_order_refines_major_minor 0x01200000 0x01050000).
  - unfold Version.is_u32. lia.
  - unfold Version.is_u32. lia.
  - right. split; [reflexivity|]. vm_compute. reflexivity.
Defined.

(** ** Reading the descriptor *)

Lemma byte_range (b : byte) : 0 <= Z.of_N (Byte.to_N b) < 256.
Proof. pose proof (Byte.to_N_bounded b). lia. Qed.

(** X10: the version the thread parses is always a [uint32_t]; the read
    changes nothing; when the descriptor file is there, the version is the
    little-endian value of its first four bytes (fewer bytes leave the high
    bytes at zero, further bytes are not read), and when it is not there the
    version is 0. *)
Theorem X10_read_version_first_four_bytes (w : World) :
  let r := read_version w in
  world r = w /\
  Version.is_u32 (value r) /\
  (forall data, fs w !! DUALSHELLCOMMANDER_VERSION_FILE = Some (File data) ->
                value r = le_decode (take 4 data) /\
                log r = [EvReadFile DUALSHELLCOMMANDER_VERSION_FILE 4
                                    (Z.of_nat (Nat.min 4 (length data)))]) /\
  ((forall data, fs w !! DUALSHELLCOMMANDER_VERSION_FILE <> Some (File data)) ->
   value r = 0 /\ log r = [EvReadFile DUALSHELLCOMMANDER_VERSION_FILE 4 (-1)]).
Proof.
  unfold read_version, ReadFile, fs_read. cbn.
  split; [reflexivity|].
  destruct (fs w !! DUALSHELLCOMMANDER_VERSION_FILE) as [[|data]|] eqn:E.
  - split; [split; vm_compute; congruence|].
    split; [intros data H; discriminate H|]. intros _. split; reflexivity.
  - assert (Hval : le_decode (store_bytes (take 4 data) (le_u32 0)) = le_decode (take 4 data) /\
                   Version.is_u32 (le_decode (take 4 data)) /\
                   length (take 4 data) = Nat.min 4 (length data)).
    { destruct data as [|a [|b [|c [|d rest]]]]; unfold Version.is_u32;
        cbv [take le_decode store_bytes le_u32 map fold_right length drop app Nat.min];
        cbn; repeat split;
        try (pose proof (byte_range a)); try (pose proof (byte_range b));
        try (pose proof (byte_range c)); try (pose proof (byte_range d)); lia. }
    destruct Hval as (Hval & Hu32 & Hlen). cbn [fst snd]. rewrite Hval.
    split; [exact Hu32|]. split.
    + intros data' H. injection H as <-. rewrite Hlen. split; reflexivity.
    + intros H. exfalso. apply (H data). reflexivity.
  - split; [split; vm_compute; congruence|].
    split; [intros data H; discriminate H|]. intros _. split; reflexivity.
Qed.

(** A descriptor of six bytes: the version is read from the first four. *)
Example read_version_long_file :
  value (read_version
           (mkWorld (<[DUALSHELLCOMMANDER_VERSION_FILE :=
                         File [x00; x00; x20; x01; xff; xff]%byte]> ∅)
                    None DIALOG_STEP_NONE 0 0 0 None)) = 0x01200000.
Proof. vm_compute. reflexivity. Qed.

(** ** The progress maximum *)

(** X17: for a size that is a [uint64_t] and a non-negative directory count
    and weight, the maximum the thread computes is never above
    [size + folders * DIRECTORY_SIZE], and it is that sum exactly when the
    product is below [2^32] and the sum is below [2^64]. *)
Theorem X17_progress_max_never_overestimates (cfg : Config) (size folders : Z) :
  0 <= size < 2 ^ 64 -> 0 <= folders -> 0 <= DIRECTORY_SIZE cfg ->
  0 <= progress_max cfg size folders <= size + folders * DIRECTORY_SIZE cfg /\
  (progress_max cfg size folders = size + folders * DIRECTORY_SIZE cfg <->
   folders * DIRECTORY_SIZE cfg < 2 ^ 32 /\
   size + folders * DIRECTORY_SIZE cfg < 2 ^ 64).
Proof.
  intros Hs Hf Hd. unfold progress_max, wrap64, wrap32.
  assert (Hp : 0 <= folders * DIRECTORY_SIZE cfg) by nia.
  generalize dependent (folders * DIRECTORY_SIZE cfg). intros p Hp.
  pose proof (Z.mod_pos_bound p (2 ^ 32) ltac:(lia)) as Hp32.
  pose proof (Z.mod_le p (2 ^ 32) Hp ltac:(lia)) as Hple.
  pose proof (Z.mod_pos_bound (size + p mod 2 ^ 32) (2 ^ 64) ltac:(lia)) as Hs64.
  pose proof (Z.mod_le (size + p mod 2 ^ 32) (2 ^ 64) ltac:(lia) ltac:(lia)) as Hsle.
  split; [lia|]. split.
  - intros Heq.
    assert (Hpeq : p mod 2 ^ 32 = p) by lia.
    rewrite Hpeq in *. lia.
  - intros [H32 H64].
    rewrite (Z.mod_small p) by lia. apply Z.mod_small. lia.
Qed.

Lemma X17_progress_max_witness :
  0 <= progress_max sample_cfg 1000 2 <= 1000 + 2 * DIRECTORY_SIZE sample_cfg /\
  (progress_max sample_cfg 1000 2 = 1000 + 2 * DIRECTORY_SIZE sample_cfg <->
   2 * DIRECTORY_SIZE sample_cfg < 2 ^ 32 /\
   1000 + 2 * DIRECTORY_SIZE sample_cfg < 2 ^ 64).
Proof.
  apply (X17_progress_max_never_overestimates sample_cfg 1000 2).
  - lia.
  - lia.
  - simpl. lia.
Defined.

(** ** What the installer touches *)

Lemma keeps_absent_seq {A B} (path : string) (m : M A) (k : M B) :
  keeps_absent path m -> keeps_absent path k -> keeps_absent path (bind m (fun _ => k)).
Proof. intros Hm Hk w H. rewrite world_bind. apply Hk, Hm, H. Qed.

Lemma fs_mkdir_lookup_ne (fs : FS) (p path : string) :
  p <> path -> fs_mkdir p fs !! path = fs !! path.
Proof.
  intros Hne. unfold fs_mkdir. destruct (fs !! p); [reflexivity|].
  by rewrite lookup_insert_ne.
Qed.

Lemma fs_write_lookup_ne (fs : FS) (p path : string) (data : list byte) :
  p <> path -> fs_write p data fs !! path = fs !! path.
Proof. intros Hne. unfold fs_write. by rewrite lookup_insert_ne. Qed.

Section InstallerFrame.

Variable cfg : Config.
Variable env : Env.

Lemma makeHeadBin_lookup (path : string) (w : World) :
  HEAD_BIN cfg <> path ->
  fs (world (makeHeadBin cfg env w)) !! path = fs w !! path.
Proof.
  intros Hne. unfold makeHeadBin. cbn.
  destruct (build_head env (subtree PACKAGE_DIR (fs w))) as [res [hdr|]]; cbn;
    [apply fs_write_lookup_ne, Hne | reflexivity].
Qed.

Lemma promoteApp_fs (path : string) (w : World) :
  fs (world (promoteApp env path w)) =
  if snd (promote env (subtree path (fs w))) then fs_removePath path (fs w) else fs w.
Proof.
  unfold promoteApp. cbn.
  destruct (promote env (subtree path (fs w))) as [res consumed]; cbn.
  destruct consumed, (0 <=? res); reflexivity.
Qed.

Lemma installUpdater_keeps_absent (path : string) :
  ~ In path (installer_paths cfg) ->
  keeps_absent path
    (exec sceIoMkdir PACKAGE_DIR mode_0777;
     exec sceIoMkdir "ux0:data/pkg/sce_sys" mode_0777;
     exec WriteFile "ux0:data/pkg/eboot.bin" (updater_eboot_bin cfg);
     exec WriteFile "ux0:data/pkg/sce_sys/param.sfo" (updater_param_bin cfg);
     do _ <- makeHeadBin cfg env;
     do _ <- promoteApp env PACKAGE_DIR;
     ret tt).
Proof.
  intros Hnot.
  assert (Hne : forall p, In p (installer_paths cfg) -> p <> path)
    by (intros p Hp ->; contradiction).
  repeat apply keeps_absent_seq; intros w H; cbn.
  - rewrite fs_mkdir_lookup_ne; [exact H | apply Hne; find_in].
  - rewrite fs_mkdir_lookup_ne; [exact H | apply Hne; find_in].
  - rewrite fs_write_lookup_ne; [exact H | apply Hne; find_in].
  - rewrite fs_write_lookup_ne; [exact H | apply Hne; find_in].
  - rewrite makeHeadBin_lookup; [exact H | apply Hne; find_in].
  - rewrite promoteApp_fs.
    destruct (snd (promote env (subtree PACKAGE_DIR (fs w)))); [|exact H].
    rewrite removePath_lookup. by destruct (under PACKAGE_DIR path).
  - exact H.
Qed.

End InstallerFrame.

(** X12: nothing of an earlier attempt survives [installUpdater]: afterwards
    the only entries at or below the package directory are at the paths the
    installer itself writes to. *)
Theorem X12_installUpdater_clears_stale_files
  (cfg : Config) (env : Env) (w : World) (path : string) :
  under PACKAGE_DIR path = true ->
  ~ In path (installer_paths cfg) ->
  fs (world (installUpdater cfg env w)) !! path = None.
Proof.
  intros Hunder Hnot. unfold installUpdater. rewrite world_bind.
  apply (installUpdater_keeps_absent cfg env path Hnot).
  cbn. by rewrite removePath_lookup, Hunder.
Qed.

Lemma X12_installUpdater_clears_stale_files_witness :
  fs stale_world !! "ux0:data/pkg/old.bin" = Some (File [x01%byte]) /\
  fs (world (installUpdater sample_cfg env_keeps_staging stale_world))
     !! "ux0:data/pkg/old.bin" = None.
Proof.
  split; [vm_compute; reflexivity|].
  apply (X12_installUpdater_clears_stale_files sample_cfg env_keeps_staging stale_world
           "ux0:data/pkg/old.bin").
  - reflexivity.
  - unfold installer_paths. simpl. intros H.
    repeat (destruct H as [H|H]; [discriminate H|]). exact H.
Defined.

(** X13: when the promotion leaves the staging copy in place and the header
    file is not one of the installer's other paths, then after
    [installUpdater] the package directory and its [sce_sys] subdirectory are
    directories and the two updater files hold the embedded blobs, byte for
    byte, whatever was there before. *)
Theorem X13_installUpdater_writes_blobs_verbatim
  (cfg : Config) (env : Env) (w : World) :
  (forall pkg, snd (promote env pkg) = false) ->
  ~ In (HEAD_BIN cfg) [PACKAGE_DIR; "ux0:data/pkg/sce_sys"; "ux0:data/pkg/eboot.bin";
                       "ux0:data/pkg/sce_sys/param.sfo"] ->
  let f := fs (world (installUpdater cfg env w)) in
  f !! PACKAGE_DIR = Some Dir /\
  f !! "ux0:data/pkg/sce_sys" = Some Dir /\
  f !! "ux0:data/pkg/eboot.bin" = Some (File (updater_eboot_bin cfg)) /\
  f !! "ux0:data/pkg/sce_sys/param.sfo" = Some (File (updater_param_bin cfg)).
Proof.
  intros Hkeep Hhead. cbv zeta.
  assert (Hne : forall p, In p [PACKAGE_DIR; "ux0:data/pkg/sce_sys"; "ux0:data/pkg/eboot.bin";
                                "ux0:data/pkg/sce_sys/param.sfo"] -> HEAD_BIN cfg <> p)
    by (intros p Hp E; rewrite E in Hhead; contradiction).
  unfold installUpdater. rewrite !world_bind. cbn [world ret].
  rewrite promoteApp_fs, Hkeep.
  rewrite !makeHeadBin_lookup by (apply Hne; find_in).
  cbn.
  assert (Hpkg : forall X : FS, fs_mkdir PACKAGE_DIR (fs_removePath PACKAGE_DIR X)
                                = <[PACKAGE_DIR := Dir]> (fs_removePath PACKAGE_DIR X)).
  { intros X. unfold fs_mkdir. by rewrite removePath_lookup, under_refl. }
  assert (Hsys : forall X : FS,
             fs_mkdir "ux0:data/pkg/sce_sys" (<[PACKAGE_DIR := Dir]> (fs_removePath PACKAGE_DIR X))
             = <["ux0:data/pkg/sce_sys" := Dir]>
                 (<[PACKAGE_DIR := Dir]> (fs_removePath PACKAGE_DIR X))).
  { intros X. unfold fs_mkdir.
    rewrite lookup_insert_ne by discriminate. by rewrite removePath_lookup. }
  rewrite Hpkg, Hsys. unfold fs_write.
  repeat split.
  - rewrite !lookup_insert_ne by discriminate. apply lookup_insert_eq.
  - rewrite !lookup_insert_ne by discriminate. apply lookup_insert_eq.
  - rewrite lookup_insert_ne by discriminate. apply lookup_insert_eq.
  - apply lookup_insert_eq.
Qed.

Lemma X13_installUpdater_writes_blobs_witness :
  let f := fs (world (installUpdater sample_cfg env_keeps_staging stale_world)) in
  f !! PACKAGE_DIR = Some Dir /\
  f !! "ux0:data/pkg/sce_sys" = Some Dir /\
  f !! "ux0:data/pkg/eboot.bin" = Some (File (updater_eboot_bin sample_cfg)) /\
  f !! "ux0:data/pkg/sce_sys/param.sfo" = Some (File (updater_param_bin sample_cfg)).
Proof.
  apply (X13_installUpdater_writes_blobs_verbatim sample_cfg env_keeps_staging stale_world).
  - intros pkg. reflexivity.
  - simpl. intros H. repeat (destruct H as [H|H]; [discriminate H|]). exact H.
Defined.

(** ** The ways through the extraction *)

(** X14: when the archive does not open, the thread goes from the error
    dialog straight to the release of the power lock: no size query, no
    worker started or waited for, no extraction, and the update file is not
    removed. *)
Theorem X14_open_failure_skips_worker_and_extraction
  (cfg : Config) (env : Env) (w : World) :
  archive_open env < 0 ->
  exists r1 r2,
    log (update_extract_thread cfg env w) =
      prepare_log cfg r1 r2 ++
      [EvArchiveClearPassword;
       EvArchiveOpen DUALSHELLCOMMANDER_UPDATE_FILE (archive_open env);
       EvCloseWaitDialog; EvErrorDialog (archive_open env);
       EvPowerUnlock; EvExitDeleteThread 0].
Proof.
  intros Hopen.
  destruct (update_extract_thread_run cfg env w) as (r1 & r2 & o & Hres & Hlog & _).
  cbv zeta in *. exists r1, r2. rewrite Hlog.
  destruct o; cbn [outcome_results] in Hres; try lia. reflexivity.
Qed.

Lemma X14_open_failure_witness :
  exists r1 r2,
    log (update_extract_thread sample_cfg env_open_fails sample_world) =
      prepare_log sample_cfg r1 r2 ++
      [EvArchiveClearPassword;
       EvArchiveOpen DUALSHELLCOMMANDER_UPDATE_FILE (archive_open env_open_fails);
       EvCloseWaitDialog; EvErrorDialog (archive_open env_open_fails);
       EvPowerUnlock; EvExitDeleteThread 0].
Proof.
  apply (X14_open_failure_skips_worker_and_extraction sample_cfg env_open_fails sample_world).
  simpl. lia.
Defined.

(** X15: the only thread the extraction ever waits for is the worker it
    started: a wait for thread [t] in the log means that the archive opened,
    that [createStartUpdateThread] returned [t], and that [t] is not
    negative.  A worker that could not be started is not waited for. *)
Theorem X15_waits_only_for_started_worker
  (cfg : Config) (env : Env) (w : World) (t : Z) :
  let r := update_extract_thread cfg env w in
  In (EvWaitThreadEnd t) (log r) ->
  0 <= t /\ t = start_thread env /\ 0 <= archive_open env /\
  exists max, In (EvCreateStartUpdateThread max 1 t) (log r).
Proof.
  destruct (update_extract_thread_run cfg env w) as (r1 & r2 & o & Hres & Hlog & _).
  cbv zeta in *. rewrite Hlog. clear Hlog. intros H.
  destruct o; cbn [outcome_results] in Hres; unfold_logs;
    destruct (Z.leb_spec 0 (start_thread env)); cbn in H; in_log H;
    (repeat split; [lia .. |]); eexists; find_in.
Qed.

Lemma X15_waits_only_for_started_worker_witness :
  let r := update_extract_thread sample_cfg env_ok sample_world in
  In (EvWaitThreadEnd 7) (log r) /\
  0 <= 7 /\ 7 = start_thread env_ok /\ 0 <= archive_open env_ok /\
  exists max, In (EvCreateStartUpdateThread max 1 7) (log r).
Proof.
  assert (H : In (EvWaitThreadEnd 7)
                 (log (update_extract_thread sample_cfg env_ok sample_world))).
  { vm_compute. repeat (first [left; reflexivity | right]). }
  split; [exact H|].
  apply (X15_waits_only_for_started_worker sample_cfg env_ok sample_world 7). exact H.
Defined.

(** When the worker cannot be started the extraction runs all the same and
    nothing is waited for. *)
Example update_extract_thread_without_worker :
  let r := update_extract_thread sample_cfg env_no_worker sample_world in
  dialog_step (world r) = DIALOG_STEP_EXTRACTED /\
  List.filter (fun e => match e with EvWaitThreadEnd _ => true | _ => false end) (log r) = [].
Proof. split; vm_compute; reflexivity. Qed.

(** X16: the thread sets the progress bar to 100, and Dialog Step to
    [EXTRACTED], only on the way that completes: in every run, either the
    archive opened, the extraction returned a positive result, both calls
    are in the log and Dialog Step ends as [EXTRACTED]; or neither call is in
    the log. *)
Theorem X16_progress_100_only_on_success (cfg : Config) (env : Env) (w : World) :
  let r := update_extract_thread cfg env w in
  (0 <= archive_open env /\ 0 < extract_res env /\
   follows (EvProgressBarSetValue 100) (EvDelayThread (COUNTUP_WAIT cfg)) (log r) /\
   In (EvSetDialogStep DIALOG_STEP_EXTRACTED) (log r) /\
   dialog_step (world r) = DIALOG_STEP_EXTRACTED) \/
  (~ In (EvProgressBarSetValue 100) (log r) /\
   ~ In (EvSetDialogStep DIALOG_STEP_EXTRACTED) (log r)).
Proof.
  destruct (update_extract_thread_run cfg env w)
    as (r1 & r2 & o & Hres & Hlog & Hstep & _).
  cbv zeta in *. rewrite Hlog, Hstep.
  destruct o; cbn [outcome_results final_step] in *.
  - right. split; unfold_logs; cbn; intros H; in_log H.
  - right. split; unfold_logs; destruct (0 <=? start_thread env); cbn;
      intros H; in_log H.
  - right. split; unfold_logs; destruct (0 <=? start_thread env); cbn;
      intros H; in_log H.
  - left. repeat split; try lia; unfold_logs;
      destruct (0 <=? start_thread env); first [find_follows | find_in].
Qed.
